(** * AI Auto News Python SDK: a shallow embedding and its verified properties

    Source: [ai-auto-news/sdk/python/ai_auto_news/__init__.py].

    The embedding follows the module layout of the SDK:
    - [Py]        the Python values the SDK manipulates (str, dict, JSON data,
                  truthiness, [int(str)], [str.encode()]);
    - [hashlib], [hmac]   the two standard-library routines used by
                  [verify_webhook_signature];
    - [requests]  responses, exceptions and the session of the HTTP library,
                  with the network taken as an arbitrary oracle;
    - the SDK itself: data classes, [AIAutoNewsSDK] (the request executor)
                  and the six resource modules.

    Effects are explicit: a computation of type [io A] transforms the log of
    observable events (HTTP round trips and sleeps) and either returns a value
    or raises a Python exception. *)

From Stdlib Require Import ZArith NArith String Ascii List Lia.
From stdpp Require Import gmap strings list fin_maps.

Set Warnings "-register-all".
Open Scope Z_scope.

(* ===================================================================== *)
(** * Python values *)
(* ===================================================================== *)

Module Py.

(** A Python [str] is a sequence of Unicode code points; [bytes] is a
    sequence of octets.  Both are lists of [N]. *)
Abbreviation str := (list N).
Abbreviation bytes := (list N).

(** A string literal of the source, as code points. *)
Fixpoint lit (s : string) : str :=
  match s with
  | EmptyString => []
  | String a s' => N_of_ascii a :: lit s'
  end.

(** The objects [json.loads] produces, which are also the values the SDK
    puts into query and body dictionaries.  [JFloat] keeps the literal. *)
Inductive json :=
| JNull
| JBool (b : bool)
| JInt (n : Z)
| JFloat (repr : str)
| JStr (s : str)
| JList (l : list json)
| JObj (m : gmap str json).

Abbreviation dict := (gmap str json).

(** The built-in exception classes that can surface from the SDK. *)
Inductive builtin_error :=
| ValueError
| TypeError
| AttributeError
| UnicodeEncodeError
| JSONDecodeError.

(** Truthiness of the values the SDK tests with [if x:]: [0], [""] and [[]]
    are falsy. *)
Definition truthy_str (s : str) : bool :=
  match s with
  | [] => false
  | _ :: _ => true
  end.

Definition truthy_int (n : Z) : bool := negb (n =? 0).

Definition truthy_list {A} (l : list A) : bool :=
  match l with
  | [] => false
  | _ :: _ => true
  end.

(** [if x: body] on an optional argument [x]; [None] is falsy as well. *)
Definition when_truthy {A B} (truthy : A -> bool) (x : option A)
    (body : A -> B -> B) (b : B) : B :=
  match x with
  | Some v => if truthy v then body v b else b
  | None => b
  end.

(** [if x is not None: body]. *)
Definition when_not_None {A B} (x : option A) (body : A -> B -> B) (b : B) : B :=
  match x with
  | Some v => body v b
  | None => b
  end.

(** The white space [int()] skips around a number: the ASCII white space and
    the Unicode white space outside ASCII.  The separators U+001C to U+001F,
    white space for [str.isspace], are not skipped. *)
Definition is_space (c : N) : bool :=
  ((9 <=? c) && (c <=? 13) || (c =? 32) || (c =? 133)
   || (c =? 160) || (c =? 5760) || (8192 <=? c) && (c <=? 8202)
   || (c =? 8232) || (c =? 8233) || (c =? 8239) || (c =? 8287)
   || (c =? 12288))%N.

(** The digit zero of every set of decimal digits (Unicode 14.0, the
    database of CPython 3.11); the digits one to nine of a set follow its
    zero. *)
Definition decimal_zeros : list N :=
  [
    48; 1632; 1776; 1984; 2406; 2534; 2662; 2790; 2918; 3046; 3174; 3302;
    3430; 3558; 3664; 3792; 3872; 4160; 4240; 6112; 6160; 6470; 6608; 6784;
    6800; 6992; 7088; 7232; 7248; 42528; 43216; 43264; 43472; 43504; 43600;
    44016; 65296; 66720; 68912; 69734; 69872; 69942; 70096; 70384; 70736;
    70864; 71248; 71360; 71472; 71904; 72016; 72784; 73040; 73120; 92768;
    92864; 93008; 120782; 120792; 120802; 120812; 120822; 123200; 123632;
    125264; 130032
  ]%N.

(** The value of a decimal digit, ASCII or not. *)
Definition digit_value (c : N) : option N :=
  match List.find (fun z => (z <=? c) && (c <? z + 10))%N decimal_zeros with
  | Some z => Some (c - z)%N
  | None => None
  end.

(** [sys.int_max_str_digits], at its default. *)
Definition max_str_digits : nat := 4300.

Fixpoint lstrip (s : str) : str :=
  match s with
  | c :: s' => if is_space c then lstrip s' else s
  | [] => []
  end.

Definition strip (s : str) : str := rev (lstrip (rev (lstrip s))).

(** Digits with single underscores between them, most significant first;
    [prev_digit] tells whether the previous character was a digit and
    [count] how many digits were read.  More than [max_str_digits] digits
    are refused. *)
Fixpoint digits (s : str) (prev_digit : bool) (count : nat) (acc : Z) : option Z :=
  match s with
  | [] => if prev_digit && (count <=? max_str_digits)%nat then Some acc else None
  | c :: s' =>
      match digit_value c with
      | Some d => digits s' true (S count) (10 * acc + Z.of_N d)
      | None =>
          if (c =? 95)%N && prev_digit then digits s' false count acc
          else None
      end
  end.

(** [int(s)] for a [str] in base 10, as CPython 3.11 does it: white space
    around, an optional sign, decimal digits with single underscores between
    them, at most [max_str_digits] digits.  [None] stands for
    [ValueError]. *)
Definition int_of_str (s : str) : option Z :=
  match strip s with
  | 45%N :: s' => option_map Z.opp (digits s' false 0 0)
  | 43%N :: s' => digits s' false 0 0
  | s' => digits s' false 0 0
  end.

(** [s.encode()]: UTF-8, strict.  Lone surrogates cannot be encoded. *)
Definition encode_char (c : N) : option bytes :=
  (if c <? 128 then Some [c]
   else if c <? 2048 then
     Some [N.lor 192 (N.shiftr c 6); N.lor 128 (N.land c 63)]
   else if (55296 <=? c) && (c <=? 57343) then None
   else if c <? 65536 then
     Some [N.lor 224 (N.shiftr c 12);
           N.lor 128 (N.land (N.shiftr c 6) 63);
           N.lor 128 (N.land c 63)]
   else
     Some [N.lor 240 (N.shiftr c 18);
           N.lor 128 (N.land (N.shiftr c 12) 63);
           N.lor 128 (N.land (N.shiftr c 6) 63);
           N.lor 128 (N.land c 63)])%N.

Fixpoint encode (s : str) : option bytes :=
  match s with
  | [] => Some []
  | c :: s' =>
      match encode_char c, encode s' with
      | Some b, Some bs => Some (b ++ bs)
      | _, _ => None
      end
  end.

Definition is_ascii (s : str) : bool := forallb (fun c => (c <? 128)%N) s.

(** Equality test on [str]. *)
Definition str_eqb (a b : str) : bool := bool_decide (a = b).

(** One bit of one code point flipped: the single-bit mutations of a string. *)
Definition flip_bit (s : str) (i : nat) (bit : N) : str :=
  match s !! i with
  | Some c => <[i := N.lxor c (N.shiftl 1 bit)]> s
  | None => s
  end.

End Py.

(* ===================================================================== *)
(** * hashlib.sha256 (FIPS 180-4) *)
(* ===================================================================== *)

Module hashlib.
Import Py.
Local Open Scope N_scope.

Definition w32 (x : N) : N := N.land x 4294967295.
Definition add32 (x y : N) : N := w32 (x + y).
Definition rotr (n x : N) : N := N.lor (N.shiftr x n) (w32 (N.shiftl x (32 - n))).
Definition not32 (x : N) : N := N.lxor x 4294967295.

Definition Ch (x y z : N) : N := N.lxor (N.land x y) (N.land (not32 x) z).
Definition Maj (x y z : N) : N :=
  N.lxor (N.lxor (N.land x y) (N.land x z)) (N.land y z).
Definition Sigma0 (x : N) : N := N.lxor (N.lxor (rotr 2 x) (rotr 13 x)) (rotr 22 x).
Definition Sigma1 (x : N) : N := N.lxor (N.lxor (rotr 6 x) (rotr 11 x)) (rotr 25 x).
Definition sigma0 (x : N) : N := N.lxor (N.lxor (rotr 7 x) (rotr 18 x)) (N.shiftr x 3).
Definition sigma1 (x : N) : N := N.lxor (N.lxor (rotr 17 x) (rotr 19 x)) (N.shiftr x 10).

(** The constants of the standard are fractional parts of roots of the first
    primes; they are computed here rather than tabulated. *)
Definition is_prime (p : N) : bool :=
  (2 <=? p) && forallb (fun d => negb (p mod N.of_nat d =? 0)) (seq 2 (N.to_nat p - 2)).

Definition primes : list N :=
  Eval vm_compute in List.filter is_prime (N.of_nat <$> seq 0 312).

(** The integer cube root of [x], found bit by bit from bit [b] down. *)
Fixpoint cube_root (b : nat) (x acc : N) : N :=
  match b with
  | O => acc
  | S b' =>
      let t := acc + N.shiftl 1 (N.of_nat b') in
      cube_root b' x (if t * t * t <=? x then t else acc)
  end.

(** The first 32 bits of the fractional part of the cube root of each of the
    first 64 primes. *)
Definition K : list N :=
  Eval vm_compute in
    (fun p => w32 (cube_root 36 (N.shiftl p 96) 0)) <$> primes.

(** The first 32 bits of the fractional part of the square root of each of
    the first 8 primes. *)
Definition H0 : list N :=
  Eval vm_compute in
    (fun p => w32 (N.sqrt (N.shiftl p 64))) <$> take 8 primes.

(** Big-endian octets of [x], [n] of them. *)
Fixpoint be_bytes (n : nat) (x : N) : bytes :=
  match n with
  | O => []
  | S n' => N.land (N.shiftr x (8 * N.of_nat n')) 255 :: be_bytes n' x
  end.

Fixpoint be_word (bs : bytes) (acc : N) : N :=
  match bs with
  | [] => acc
  | b :: bs' => be_word bs' (N.lor (N.shiftl acc 8) b)
  end.

(** The message followed by 0x80, zeros up to 56 mod 64, and its bit length. *)
Definition pad (msg : bytes) : bytes :=
  let len := N.of_nat (length msg) in
  let zeros := N.to_nat ((119 - len mod 64) mod 64) in
  msg ++ [128] ++ repeat 0 zeros ++ be_bytes 8 (8 * len).

Fixpoint words (n : nat) (bs : bytes) : list N :=
  match n with
  | O => []
  | S n' => be_word (take 4 bs) 0 :: words n' (drop 4 bs)
  end.

(** The 64 rounds on one block.  [win] is the sliding window of the sixteen
    most recent schedule words, [st] the working variables a..h. *)
Fixpoint rounds (ks : list N) (win : list N) (st : list N) : list N :=
  match ks with
  | [] => st
  | k :: ks' =>
      let w i := nth i win 0 in
      let v i := nth i st 0 in
      let next := add32 (add32 (sigma1 (w 14%nat)) (w 9%nat))
                        (add32 (sigma0 (w 1%nat)) (w 0%nat)) in
      let T1 := add32 (add32 (add32 (v 7%nat) (Sigma1 (v 4%nat)))
                             (add32 (Ch (v 4%nat) (v 5%nat) (v 6%nat)) k))
                      (w 0%nat) in
      let T2 := add32 (Sigma0 (v 0%nat)) (Maj (v 0%nat) (v 1%nat) (v 2%nat)) in
      rounds ks' (drop 1 win ++ [next])
        [ add32 T1 T2; v 0%nat; v 1%nat; v 2%nat;
          add32 (v 3%nat) T1; v 4%nat; v 5%nat; v 6%nat ]
  end.

Definition compress (h : list N) (block : bytes) : list N :=
  zip_with add32 h (rounds K (words 16 block) h).

Fixpoint blocks (n : nat) (h : list N) (bs : bytes) : list N :=
  match n with
  | O => h
  | S n' => blocks n' (compress h (take 64 bs)) (drop 64 bs)
  end.

Definition sha256 (msg : bytes) : bytes :=
  let p := pad msg in
  flat_map (be_bytes 4) (blocks (length p / 64) H0 p).

Definition hex_digit (d : N) : N := if d <? 10 then 48 + d else 87 + d.

(** [.hexdigest()]: two lowercase hexadecimal digits per octet. *)
Definition hexdigest (digest : bytes) : str :=
  flat_map (fun b => [hex_digit (N.shiftr b 4); hex_digit (N.land b 15)]) digest.

End hashlib.

(* ===================================================================== *)
(** * hmac (RFC 2104) *)
(* ===================================================================== *)

Module hmac.
Import Py.
Local Open Scope N_scope.

Definition block_size : nat := 64.

(** [hmac.new(key, msg, hashlib.sha256).digest()]. *)
Definition new (key msg : bytes) : bytes :=
  let key := if (block_size <? length key)%nat then hashlib.sha256 key else key in
  let key := key ++ repeat 0 (block_size - length key) in
  let inner := hashlib.sha256 (map (N.lxor 54) key ++ msg) in
  hashlib.sha256 (map (N.lxor 92) key ++ inner).

(** [hmac.compare_digest(a, b)] on two [str]: both must be ASCII, otherwise
    the call raises [TypeError]; [None] stands for that. *)
Definition compare_digest (a b : str) : option bool :=
  if is_ascii a && is_ascii b then Some (str_eqb a b) else None.

End hmac.

(* ===================================================================== *)
(** * requests: responses, exceptions, sessions *)
(* ===================================================================== *)

Module requests.
Import Py.

(** What [response.json()] does on the body: the decoded value, or a decode
    error.  Recent releases of the library raise their own
    [requests.exceptions.JSONDecodeError], a [RequestException]; older ones
    let [json.JSONDecodeError], a [ValueError], through. *)
Inductive json_body :=
| Decoded (v : json)
| Malformed (is_request_exception : bool) (text : str).

(** Header names are looked up case-insensitively; the map is keyed by the
    lower-case name, which is how the SDK spells the names it reads. *)
Record Response := {
  status_code : Z;
  reason : str;
  content : bytes;
  json_ : json_body;
  headers : gmap str str;
}.

(** [response.ok]: [raise_for_status()] would not raise. *)
Definition ok (r : Response) : bool :=
  negb ((400 <=? status_code r) && (status_code r <? 600)).

Inductive exception_class :=
| ConnectionError
| Timeout
| TooManyRedirects
| HTTPError
| InvalidJSONError.

(** An instance of a subclass of [requests.exceptions.RequestException]:
    [exc_str] is what [str(e)] gives, [exc_response] the attribute
    [e.response], which the base class always defines. *)
Record RequestException := {
  exc_class : exception_class;
  exc_str : str;
  exc_response : option Response;
}.

(** The keyword arguments of one [session.request(...)]. *)
Record Call := {
  call_method : str;
  call_url : str;
  call_params : option dict;
  call_json : option dict;
  call_headers : gmap str str;
  call_timeout : Z;
}.

(** What one round trip does. *)
Inductive reply :=
| Responds (r : Response)
| Throws (e : RequestException)
| Crashes (c : builtin_error).

(** A session holds the default headers; the network behind it is an
    arbitrary function of the number of round trips made so far and of the
    call. *)
Record Session := {
  session_headers : gmap str str;
  transport : nat -> Call -> reply;
}.

End requests.

(* ===================================================================== *)
(** * The SDK: data classes *)
(* ===================================================================== *)

Import Py.

Inductive ContentType := BLOG | NEWS.

Definition ContentType_value (c : ContentType) : str :=
  match c with
  | BLOG => lit "blog"
  | NEWS => lit "news"
  end.

Inductive Urgency := LOW | MEDIUM | HIGH | BREAKING.

Definition Urgency_value (u : Urgency) : str :=
  match u with
  | LOW => lit "low"
  | MEDIUM => lit "medium"
  | HIGH => lit "high"
  | BREAKING => lit "breaking"
  end.

(** Members of an [Enum] are always truthy. *)
Definition truthy_enum {A} (x : A) : bool := true.

Record SDKConfig := {
  api_key : str;
  base_url : str;
  timeout : Z;
  retries : Z;
  version : str;
}.

(** [SDKConfig(api_key=k)] with the declared defaults. *)
Definition SDKConfig_default (k : str) : SDKConfig :=
  {| api_key := k;
     base_url := lit "https://api.ai-auto-news.com";
     timeout := 30;
     retries := 3;
     version := lit "v1" |}.

(** The data class does not check field types: each field holds whatever the
    payload carried. *)
Module Post.
Record t := {
  id : json;
  title : json;
  content : json;
  category : json;
  slug : json;
  published : json;
  created_at : json;
  metadata : json;
}.
End Post.

Record APIResponse := {
  success : bool;
  data : json;
  error : option dict;
  metadata : option dict;
}.

(** [details] of the SDK's exception is either data from the error body or
    the exception captured by the retry loop. *)
Inductive detail :=
| DetailData (v : json)
| DetailError (e : requests.RequestException).

Record AIAutoNewsException := {
  message : json;
  code : json;
  details : detail;
}.

(* ===================================================================== *)
(** * Effects: the event log and raised exceptions *)
(* ===================================================================== *)

Inductive exn :=
| RequestError (e : requests.RequestException)
| Builtin (c : builtin_error)
| SDKError (e : AIAutoNewsException).

Inductive outcome (A : Type) :=
| Return (a : A)
| Raise (e : exn).
Arguments Return {A} a.
Arguments Raise {A} e.

Inductive event :=
| Sent (c : requests.Call)
| Slept (seconds : Z).

Definition io (A : Type) : Type := list event -> list event * outcome A.

#[global] Instance io_ret : MRet io := fun A a log => (log, Return a).

#[global] Instance io_bind : MBind io := fun A B k m log =>
  match m log with
  | (log', Return a) => k a log'
  | (log', Raise e) => (log', Raise e)
  end.

Definition raise {A} (e : exn) : io A := fun log => (log, Raise e).

(** A pure step that may raise. *)
Definition lift {A} (o : outcome A) : io A := fun log => (log, o).

(** [try: body / except requests.exceptions.RequestException as e: handler]. *)
Definition try_except {A} (body : io A)
    (handler : requests.RequestException -> io A) : io A := fun log =>
  match body log with
  | (log', Raise (RequestError e)) => handler e log'
  | r => r
  end.

Definition is_sent (ev : event) : bool :=
  match ev with
  | Sent _ => true
  | Slept _ => false
  end.

(** The calls made and the delays slept, in order. *)
Definition attempts_of (log : list event) : nat := length (List.filter is_sent log).

Definition sleeps_of (log : list event) : list Z :=
  flat_map (fun ev => match ev with Slept s => [s] | Sent _ => [] end) log.

(** [session.request(...)]: one round trip, the [k]-th of the log. *)
Definition session_request (s : requests.Session) (c : requests.Call)
    : io requests.Response := fun log =>
  (log ++ [Sent c],
   match requests.transport s (attempts_of log) c with
   | requests.Responds r => Return r
   | requests.Throws e => Raise (RequestError e)
   | requests.Crashes b => Raise (Builtin b)
   end).

Module time.
Definition sleep (seconds : Z) : io unit := fun log => (log ++ [Slept seconds], Return tt).
End time.

(** [range(n)]. *)
Definition range (n : Z) : list Z := map Z.of_nat (seq 0 (Z.to_nat n)).

(** [d.get(key, default)]; only a [dict] has the method. *)
Definition py_get (d : json) (key : str) (default : json) : outcome json :=
  match d with
  | JObj m => Return (match m !! key with Some v => v | None => default end)
  | _ => Raise (Builtin AttributeError)
  end.

(** [for x in v]: the items of a list, the keys of a dict, the characters of
    a string; anything else is not iterable. *)
Definition py_iter (v : json) : outcome (list json) :=
  match v with
  | JList l => Return l
  | JObj m => Return (JStr <$> elements (dom m))
  | JStr s => Return ((fun c => JStr [c]) <$> s)
  | _ => Raise (Builtin TypeError)
  end.

Definition Post_fields : gset str :=
  {[ lit "id"; lit "title"; lit "content"; lit "category"; lit "slug";
     lit "published"; lit "created_at"; lit "metadata" ]}.

(** [Post] built from the keyword arguments unpacked from [v]: [v] must be a
    mapping whose keys are field names and cover every field without a
    default. *)
Definition Post_kwargs (v : json) : outcome Post.t :=
  match v with
  | JObj m =>
      if bool_decide (dom m ⊆ Post_fields) then
        match m !! lit "id", m !! lit "title", m !! lit "content",
              m !! lit "category", m !! lit "slug", m !! lit "published",
              m !! lit "created_at" with
        | Some i, Some t, Some c, Some g, Some s, Some p, Some a =>
            Return {| Post.id := i; Post.title := t; Post.content := c;
                      Post.category := g; Post.slug := s;
                      Post.published := p; Post.created_at := a;
                      Post.metadata := default JNull (m !! lit "metadata") |}
        | _, _, _, _, _, _, _ => Raise (Builtin TypeError)
        end
      else Raise (Builtin TypeError)
  | _ => Raise (Builtin TypeError)
  end.

(** The comprehension building one [Post] per item, in order. *)
Fixpoint Post_each (items : list json) : outcome (list Post.t) :=
  match items with
  | [] => Return []
  | x :: rest =>
      match Post_kwargs x with
      | Return p =>
          match Post_each rest with
          | Return ps => Return (p :: ps)
          | Raise e => Raise e
          end
      | Raise e => Raise e
      end
  end.

Definition Post_list (v : json) : outcome (list Post.t) :=
  match py_iter v with
  | Return items => Post_each items
  | Raise e => Raise e
  end.

(* ===================================================================== *)
(** * AIAutoNewsSDK: the request executor *)
(* ===================================================================== *)

Module AIAutoNewsSDK.

(** The client object: its configuration and its session.  The resource
    modules hold a reference to it and nothing else. *)
Record t := {
  config : SDKConfig;
  session : requests.Session;
}.

(** The constructor installs the three default headers on the session it is
    given; a bare API key stands for the default configuration. *)
Definition __init__ (cfg : SDKConfig + str) (s : requests.Session) : t :=
  let cfg := match cfg with inl c => c | inr k => SDKConfig_default k end in
  {| config := cfg;
     session :=
       {| requests.session_headers :=
            {[ lit "Authorization" := lit "Bearer " ++ api_key cfg;
               lit "Content-Type" := lit "application/json";
               lit "User-Agent" := lit "ai-auto-news-sdk-python/2.0.0" ]}
            ∪ requests.session_headers s;
          requests.transport := requests.transport s |} |}.

Definition _build_url (self : t) (path : str) : str :=
  base_url (config self) ++ lit "/api/" ++ version (config self) ++ path.

(** The [metadata] dictionary of a successful response.  [int(...)] raises
    [ValueError] on a header that is present and is not an integer. *)
Definition build_metadata (response : requests.Response) : outcome dict :=
  let h := requests.headers response in
  let request_id := default (lit "") (h !! lit "x-request-id") in
  let remaining :=
    match h !! lit "x-ratelimit-remaining" with
    | Some v => int_of_str v
    | None => Some 0
    end in
  match remaining with
  | Some n =>
      let reset := default (lit "") (h !! lit "x-ratelimit-reset") in
      Return {[ lit "request_id" := JStr request_id;
                lit "rate_limit" :=
                  JObj {[ lit "remaining" := JInt n;
                          lit "reset" := JStr reset ]} ]}
  | None => Raise (Builtin ValueError)
  end.

(** [response.json() if response.content else {}]. *)
Definition parse_body (response : requests.Response) : outcome json :=
  match requests.content response with
  | [] => Return (JObj ∅)
  | _ :: _ =>
      match requests.json_ response with
      | requests.Decoded v => Return v
      | requests.Malformed true text =>
          Raise (RequestError
                   {| requests.exc_class := requests.InvalidJSONError;
                      requests.exc_str := text;
                      requests.exc_response := None |})
      | requests.Malformed false _ => Raise (Builtin JSONDecodeError)
      end
  end.

(** The body of the [try]: one round trip and the handling of its response. *)
Definition attempt (self : t) (c : requests.Call) : io APIResponse :=
  response ← session_request (session self) c;
  data ← lift (parse_body response);
  if negb (requests.ok response) then
    error ← lift (py_get data (lit "error") (JObj ∅));
    msg ← lift (py_get error (lit "message") (JStr (requests.reason response)));
    cod ← lift (py_get error (lit "code") (JStr (lit "request_failed")));
    det ← lift (py_get error (lit "details") JNull);
    raise (SDKError {| message := msg; code := cod; details := DetailData det |})
  else
    payload ← lift (py_get data (lit "data") data);
    meta ← lift (build_metadata response);
    mret {| success := true;
            data := payload;
            error := None;
            metadata := Some meta |}.

(** [e.response is not None] and its status is a client error. *)
Definition is_client_error (e : requests.RequestException) : bool :=
  match requests.exc_response e with
  | Some r => (400 <=? requests.status_code r) && (requests.status_code r <? 500)
  | None => false
  end.

(** [str(last_error)]. *)
Definition str_of_error (last_error : option requests.RequestException) : str :=
  match last_error with
  | Some e => requests.exc_str e
  | None => lit "None"
  end.

Definition detail_of_error (last_error : option requests.RequestException) : detail :=
  match last_error with
  | Some e => DetailError e
  | None => DetailData JNull
  end.

(** The exception raised after the loop. *)
Definition request_failed (last_error : option requests.RequestException)
    : AIAutoNewsException :=
  {| message := JStr (str_of_error last_error);
     code := JStr (lit "request_failed");
     details := detail_of_error last_error |}.

(** The [for] loop over the remaining attempt indices, followed by the final
    [raise].  A [return] or an exception that is not a [RequestException]
    leaves the loop at once; [break] goes to the final [raise]. *)
Fixpoint retry_loop (self : t) (c : requests.Call) (indices : list Z)
    (last_error : option requests.RequestException) : io APIResponse :=
  match indices with
  | [] => raise (SDKError (request_failed last_error))
  | attempt_index :: rest =>
      try_except (attempt self c) (fun e =>
        let last_error := Some e in
        if is_client_error e then raise (SDKError (request_failed last_error))
        else
          _ ← (if attempt_index <? retries (config self) - 1
               then time.sleep (2 ^ attempt_index)
               else mret tt);
          retry_loop self c rest last_error)
  end.

Definition request_headers (self : t) (headers : option (gmap str str))
    : gmap str str :=
  let base := requests.session_headers (session self) in
  match headers with
  | Some h => if bool_decide (h = ∅) then base else h ∪ base
  | None => base
  end.

(** The keyword arguments every attempt passes to [session.request]. *)
Definition call_of (self : t) (method path : str) (params body : option dict)
    (headers : option (gmap str str)) : requests.Call :=
  {| requests.call_method := method;
     requests.call_url := _build_url self path;
     requests.call_params := params;
     requests.call_json := body;
     requests.call_headers := request_headers self headers;
     requests.call_timeout := timeout (config self) |}.

Definition _request (self : t) (method path : str) (params body : option dict)
    (headers : option (gmap str str)) : io APIResponse :=
  retry_loop self (call_of self method path params body headers)
    (range (retries (config self))) None.

(** The three ways the signature check can end. *)
Definition verify_webhook_signature (payload signature secret : str)
    : outcome bool :=
  match encode secret with
  | None => Raise (Builtin UnicodeEncodeError)
  | Some key =>
      match encode payload with
      | None => Raise (Builtin UnicodeEncodeError)
      | Some msg =>
          let expected := hashlib.hexdigest (hmac.new key msg) in
          match hmac.compare_digest signature expected with
          | Some b => Return b
          | None => Raise (Builtin TypeError)
          end
      end
  end.

End AIAutoNewsSDK.

(** The keyword options [create_client] forwards to [SDKConfig]; one that is
    left out keeps the declared default.  Other keywords make [SDKConfig]
    raise and are not represented. *)
Record ClientOptions := {
  opt_base_url : option str;
  opt_timeout : option Z;
  opt_retries : option Z;
  opt_version : option str;
}.

Definition no_options : ClientOptions :=
  {| opt_base_url := None; opt_timeout := None;
     opt_retries := None; opt_version := None |}.

Definition create_client (key : str) (kwargs : ClientOptions)
    (s : requests.Session) : AIAutoNewsSDK.t :=
  let d := SDKConfig_default key in
  AIAutoNewsSDK.__init__
    (inl {| api_key := key;
            base_url := default (base_url d) (opt_base_url kwargs);
            timeout := default (timeout d) (opt_timeout kwargs);
            retries := default (retries d) (opt_retries kwargs);
            version := default (version d) (opt_version kwargs) |})
    s.

(* ===================================================================== *)
(** * The resource modules *)
(* ===================================================================== *)

Module Posts.

Definition list_params (page limit : Z) (category : option str)
    (published : option bool) : dict :=
  let params : dict := {[ lit "page" := JInt page; lit "limit" := JInt limit ]} in
  let params := when_truthy truthy_str category
                    (fun v => <[lit "category" := JStr v]>) params in
  let params := when_not_None published
                    (fun v => <[lit "published" := JBool v]>) params in
  params.

Definition list (self : AIAutoNewsSDK.t) (page limit : Z)
    (category : option str) (published : option bool) : io (Datatypes.list Post.t) :=
  let params := list_params page limit category published in
  response ← AIAutoNewsSDK._request self (lit "GET") (lit "/posts") (Some params) None None;
  lift (Post_list (data response)).

Definition get (self : AIAutoNewsSDK.t) (id_or_slug : str) : io Post.t :=
  response ← AIAutoNewsSDK._request self (lit "GET") (lit "/posts/" ++ id_or_slug) None None None;
  lift (Post_kwargs (data response)).

Definition create (self : AIAutoNewsSDK.t) (post_data : dict) : io Post.t :=
  response ← AIAutoNewsSDK._request self (lit "POST") (lit "/posts") None (Some post_data) None;
  lift (Post_kwargs (data response)).

Definition update (self : AIAutoNewsSDK.t) (post_id : str) (post_data : dict) : io Post.t :=
  response ← AIAutoNewsSDK._request self (lit "PUT") (lit "/posts/" ++ post_id) None (Some post_data) None;
  lift (Post_kwargs (data response)).

Definition delete (self : AIAutoNewsSDK.t) (post_id : str) : io unit :=
  _ ← AIAutoNewsSDK._request self (lit "DELETE") (lit "/posts/" ++ post_id) None None None;
  mret tt.

Definition search_params (query : str) (limit : Z) (category : option str) : dict :=
  let params : dict := {[ lit "q" := JStr query; lit "limit" := JInt limit ]} in
  let params := when_truthy truthy_str category
                    (fun v => <[lit "category" := JStr v]>) params in
  params.

Definition search (self : AIAutoNewsSDK.t) (query : str) (limit : Z)
    (category : option str) : io (Datatypes.list Post.t) :=
  let params := search_params query limit category in
  response ← AIAutoNewsSDK._request self (lit "GET") (lit "/search") (Some params) None None;
  lift (Post_list (data response)).

End Posts.

Module Generation.

Definition create_body (topic : str) (content_type : ContentType)
    (urgency : option Urgency) (target_length : option Z)
    (tone audience : option str) : dict :=
  let body : dict := {[ lit "topic" := JStr topic;
                 lit "type" := JStr (ContentType_value content_type) ]} in
  let body := when_truthy truthy_enum urgency
                  (fun v => <[lit "urgency" := JStr (Urgency_value v)]>) body in
  let body := when_truthy truthy_int target_length
                  (fun v => <[lit "targetLength" := JInt v]>) body in
  let body := when_truthy truthy_str tone
                  (fun v => <[lit "tone" := JStr v]>) body in
  let body := when_truthy truthy_str audience
                  (fun v => <[lit "audience" := JStr v]>) body in
  body.

Definition create (self : AIAutoNewsSDK.t) (topic : str) (content_type : ContentType)
    (urgency : option Urgency) (target_length : option Z)
    (tone audience : option str) : io Post.t :=
  let body := create_body topic content_type urgency target_length tone audience in
  response ← AIAutoNewsSDK._request self (lit "POST") (lit "/generate") None (Some body) None;
  lift (Post_kwargs (data response)).

Definition status (self : AIAutoNewsSDK.t) (job_id : str) : io json :=
  response ← AIAutoNewsSDK._request self (lit "GET") (lit "/generate/" ++ job_id) None None None;
  mret (data response).

End Generation.

Module Analytics.

Definition usage_params (start end_ metric : option str) : dict :=
  let params : dict := ∅ in
  let params := when_truthy truthy_str start
                    (fun v => <[lit "start" := JStr v]>) params in
  let params := when_truthy truthy_str end_
                    (fun v => <[lit "end" := JStr v]>) params in
  let params := when_truthy truthy_str metric
                    (fun v => <[lit "metric" := JStr v]>) params in
  params.

Definition usage (self : AIAutoNewsSDK.t) (start end_ metric : option str) : io json :=
  let params := usage_params start end_ metric in
  response ← AIAutoNewsSDK._request self (lit "GET") (lit "/analytics/usage") (Some params) None None;
  mret (data response).

Definition metrics (self : AIAutoNewsSDK.t) : io json :=
  response ← AIAutoNewsSDK._request self (lit "GET") (lit "/analytics/metrics") None None None;
  mret (data response).

End Analytics.

Module Subscriptions.

Definition get (self : AIAutoNewsSDK.t) : io json :=
  response ← AIAutoNewsSDK._request self (lit "GET") (lit "/subscriptions/current") None None None;
  mret (data response).

Definition upgrade (self : AIAutoNewsSDK.t) (tier : str) : io json :=
  response ← AIAutoNewsSDK._request self (lit "POST") (lit "/subscriptions/upgrade") None
               (Some {[ lit "tier" := JStr tier ]}) None;
  mret (data response).

Definition cancel (self : AIAutoNewsSDK.t) : io unit :=
  _ ← AIAutoNewsSDK._request self (lit "POST") (lit "/subscriptions/cancel") None None None;
  mret tt.

End Subscriptions.

Module APIKeys.

Definition list (self : AIAutoNewsSDK.t) : io json :=
  response ← AIAutoNewsSDK._request self (lit "GET") (lit "/apikeys") None None None;
  mret (data response).

Definition create_body (name : str) (scopes : option (Datatypes.list str))
    (expires_at : option str) : dict :=
  let body : dict := {[ lit "name" := JStr name ]} in
  let body := when_truthy truthy_list scopes
                  (fun v => <[lit "scopes" := JList (JStr <$> v)]>) body in
  let body := when_truthy truthy_str expires_at
                  (fun v => <[lit "expiresAt" := JStr v]>) body in
  body.

Definition create (self : AIAutoNewsSDK.t) (name : str)
    (scopes : option (Datatypes.list str)) (expires_at : option str) : io json :=
  let body := create_body name scopes expires_at in
  response ← AIAutoNewsSDK._request self (lit "POST") (lit "/apikeys") None (Some body) None;
  mret (data response).

Definition revoke (self : AIAutoNewsSDK.t) (key_id : str) : io unit :=
  _ ← AIAutoNewsSDK._request self (lit "DELETE") (lit "/apikeys/" ++ key_id) None None None;
  mret tt.

End APIKeys.

Module Webhooks.

Definition list (self : AIAutoNewsSDK.t) : io json :=
  response ← AIAutoNewsSDK._request self (lit "GET") (lit "/webhooks") None None None;
  mret (data response).

Definition create_body (url : str) (events : Datatypes.list str)
    (secret : option str) : dict :=
  let body : dict := {[ lit "url" := JStr url; lit "events" := JList (JStr <$> events) ]} in
  let body := when_truthy truthy_str secret
                  (fun v => <[lit "secret" := JStr v]>) body in
  body.

Definition create (self : AIAutoNewsSDK.t) (url : str) (events : Datatypes.list str)
    (secret : option str) : io json :=
  let body := create_body url events secret in
  response ← AIAutoNewsSDK._request self (lit "POST") (lit "/webhooks") None (Some body) None;
  mret (data response).

Definition delete (self : AIAutoNewsSDK.t) (webhook_id : str) : io unit :=
  _ ← AIAutoNewsSDK._request self (lit "DELETE") (lit "/webhooks/" ++ webhook_id) None None None;
  mret tt.

End Webhooks.

(* ===================================================================== *)
(** * Shapes of logs and of method behaviour used in the statements *)
(* ===================================================================== *)

(** The events of [n] consecutive attempts of call [c] that all end in the
    [except] clause without [break], the first having index [i]: a round
    trip, then the backoff sleep unless the index is the last one. *)
Fixpoint failed_rounds (c : requests.Call) (retries : Z) (i n : nat) : list event :=
  match n with
  | O => []
  | S n' =>
      Sent c
      :: (if Z.of_nat i <? retries - 1 then [Slept (2 ^ Z.of_nat i)] else [])
      ++ failed_rounds c retries (S i) n'
  end.

(** [added] is [k] round trips of the call [c] with the backoff sleeps
    between them and nothing else: a round trip at every even position, the
    sleep of [2 ^ j] seconds right after round trip [j], none after the
    last. *)
Definition interleaved (c : requests.Call) (k : nat) (added : list event) : Prop :=
  length added = (2 * k - 1)%nat
  /\ (forall j, (j < k)%nat -> added !! (2 * j)%nat = Some (Sent c))
  /\ (forall j, (S j < k)%nat ->
        added !! (2 * j + 1)%nat = Some (Slept (2 ^ Z.of_nat j))).

(** The time a log spends sleeping. *)
Definition total_sleep (log : list event) : Z := foldr Z.add 0 (sleeps_of log).

(** A code point in the surrogate range, which UTF-8 cannot carry. *)
Definition is_surrogate (ch : N) : bool := ((55296 <=? ch) && (ch <=? 57343))%N.

(** A lowercase hexadecimal digit. *)
Definition is_lower_hex (ch : N) : bool :=
  ((48 <=? ch) && (ch <=? 57) || (97 <=? ch) && (ch <=? 102))%N.

(** The fields of [Post] declared without a default. *)
Definition Post_required : gset str :=
  {[ lit "id"; lit "title"; lit "content"; lit "category"; lit "slug";
     lit "published"; lit "created_at" ]}.

(** The value an optional argument is sent with, if it is sent. *)
Definition sent_value {A} (truthy : A -> bool) (x : option A) : option A :=
  match x with
  | Some v => if truthy v then Some v else None
  | None => None
  end.

(** [m] adds to the log at most [limit] round trips, all of them the call
    [c], with the backoff sleeps between them and nothing else. *)
Definition round_trips {A} (m : io A) (c : requests.Call) (limit : Z) : Prop :=
  forall log, exists k : nat,
    (k <= Z.to_nat limit)%nat
    /\ fst (m log) = log ++ failed_rounds c (Z.of_nat k) 0 k.

(** [isinstance(v, dict)]. *)
Definition is_object (v : json) : bool :=
  match v with
  | JObj _ => true
  | _ => false
  end.

(** [m] passes on whatever [exec] raises: same exception, same log. *)
Definition propagates {A} (m : io A) (exec : io APIResponse) : Prop :=
  forall log log' e, exec log = (log', Raise e) -> m log = (log', Raise e).

(** Every exception [m] raises was raised by [exec]. *)
Definition raises_only_from {A} (m : io A) (exec : io APIResponse) : Prop :=
  forall log log' e, m log = (log', Raise e) -> exec log = (log', Raise e).

(** Every exception [m] raises was raised by [exec], or is the [TypeError]
    of building a [Post] from the payload [exec] returned. *)
Definition raises_from_or_TypeError {A} (m : io A) (exec : io APIResponse) : Prop :=
  forall log log' e, m log = (log', Raise e) ->
    exec log = (log', Raise e)
    \/ (e = Builtin TypeError /\ exists r, exec log = (log', Return r)).

(* ===================================================================== *)
(** * Fixtures: concrete clients, networks and responses *)
(* ===================================================================== *)

Module Fixtures.

(** A network that gives the same reply to every round trip. *)
Definition always (r : requests.reply) : nat -> requests.Call -> requests.reply :=
  fun _ _ => r.

(** A client with the default configuration except for [retries]. *)
Definition client (n : Z) (net : nat -> requests.Call -> requests.reply)
    : AIAutoNewsSDK.t :=
  AIAutoNewsSDK.__init__
    (inl {| api_key := lit "k"; base_url := lit "https://api.ai-auto-news.com";
            timeout := 30; retries := n; version := lit "v1" |})
    {| requests.session_headers := ∅; requests.transport := net |}.

Definition response (status : Z) (phrase : string) (body : requests.json_body)
    (headers : gmap str str) : requests.Response :=
  {| requests.status_code := status;
     requests.reason := lit phrase;
     requests.content := lit "...";
     requests.json_ := body;
     requests.headers := headers |}.

Definition empty_response (status : Z) (phrase : string) : requests.Response :=
  {| requests.status_code := status;
     requests.reason := lit phrase;
     requests.content := [];
     requests.json_ := requests.Malformed true (lit "Expecting value");
     requests.headers := ∅ |}.

(** 404 with body [{"error":{"code":"not_found","message":"missing"}}]. *)
Definition not_found : requests.Response :=
  response 404 "Not Found"
    (requests.Decoded
       (JObj {[ lit "error" :=
                  JObj {[ lit "code" := JStr (lit "not_found");
                          lit "message" := JStr (lit "missing") ]} ]}))
    ∅.

(** 200 with body [{"data":{"id":"p1","title":"T"}}]. *)
Definition partial_post : requests.Response :=
  response 200 "OK"
    (requests.Decoded
       (JObj {[ lit "data" :=
                  JObj {[ lit "id" := JStr (lit "p1");
                          lit "title" := JStr (lit "T") ]} ]}))
    ∅.

Definition connection_refused : requests.RequestException :=
  {| requests.exc_class := requests.ConnectionError;
     requests.exc_str := lit "Connection refused";
     requests.exc_response := None |}.

(** 503 with an empty body. *)
Definition unavailable : requests.Response :=
  empty_response 503 "Service Unavailable".

(** 404 with a body that is not JSON, as a web server's own error page. *)
Definition not_found_page : requests.Response :=
  response 404 "Not Found" (requests.Malformed true (lit "Expecting value")) ∅.

(** 404 with body [[]]: well-formed JSON that is not an object. *)
Definition not_found_array : requests.Response :=
  response 404 "Not Found" (requests.Decoded (JList [])) ∅.

(** 200 with a body that is not JSON; [lib] tells which decode error the
    installed release of the library raises. *)
Definition garbled (lib : bool) : requests.Response :=
  response 200 "OK" (requests.Malformed lib (lit "Expecting value")) ∅.

(** 200 with body [{}] and the given value of [x-ratelimit-remaining]. *)
Definition limited (remaining : string) : requests.Response :=
  response 200 "OK" (requests.Decoded (JObj ∅))
    {[ lit "x-ratelimit-remaining" := lit remaining ]}.

(** An [HTTPError] raised by the library with the 404 response attached. *)
Definition http_error_404 : requests.RequestException :=
  {| requests.exc_class := requests.HTTPError;
     requests.exc_str := lit "404 Client Error: Not Found";
     requests.exc_response := Some not_found |}.

(** A network whose first [k] round trips are refused and whose later ones
    get the reply [r]. *)
Definition refused_then (k : nat) (r : requests.reply)
    : nat -> requests.Call -> requests.reply :=
  fun i _ => if (i <? k)%nat then requests.Throws connection_refused else r.

(** 200 with body [{"data": {...}}] carrying a complete post. *)
Definition full_post_fields : dict :=
  {[ lit "id" := JStr (lit "p1"); lit "title" := JStr (lit "T");
     lit "content" := JStr (lit "C"); lit "category" := JStr (lit "tech");
     lit "slug" := JStr (lit "t"); lit "published" := JBool true;
     lit "created_at" := JStr (lit "2024-01-01") ]}.

Definition full_post : requests.Response :=
  response 200 "OK"
    (requests.Decoded (JObj {[ lit "data" := JObj full_post_fields ]})) ∅.

(** The HMAC-SHA256 of payload [abc] under secret [s], in hexadecimal. *)
Definition abc_signature : str :=
  lit "47d920ed90784dc5eae635bfd0824f612d05f09f9a47f60390de873ad37e546b".

End Fixtures.

(* ===================================================================== *)
(** * Properties of the log and of the effect combinators *)
(* ===================================================================== *)

Section Log.

Lemma attempts_of_app (l1 l2 : list event) :
  attempts_of (l1 ++ l2) = (attempts_of l1 + attempts_of l2)%nat.
Proof. unfold attempts_of. now rewrite List.filter_app, length_app. Qed.

Lemma sleeps_of_app (l1 l2 : list event) :
  sleeps_of (l1 ++ l2) = sleeps_of l1 ++ sleeps_of l2.
Proof. unfold sleeps_of. apply flat_map_app. Qed.

Lemma attempts_of_sent (log : list event) (c : requests.Call) :
  attempts_of (log ++ [Sent c]) = S (attempts_of log).
Proof. rewrite attempts_of_app. cbn. lia. Qed.

Lemma attempts_of_slept (log : list event) (s : Z) :
  attempts_of (log ++ [Slept s]) = attempts_of log.
Proof. rewrite attempts_of_app. cbn. lia. Qed.

Lemma attempts_of_failed_rounds c R n : forall i,
  attempts_of (failed_rounds c R i n) = n.
Proof.
  induction n as [|n IH]; intros i; [reflexivity|].
  cbn [failed_rounds].
  change (Sent c :: ?l) with ([Sent c] ++ l).
  rewrite !attempts_of_app, IH.
  destruct (Z.of_nat i <? R - 1); reflexivity.
Qed.

(** When the rounds run up to the last index, every round but the last is
    followed by its sleep. *)
Lemma sleeps_of_failed_rounds c R n : forall i,
  Z.of_nat (i + n) = R ->
  sleeps_of (failed_rounds c R i n) = (fun k => 2 ^ Z.of_nat k) <$> seq i (n - 1).
Proof.
  induction n as [|n IH]; intros i HR; [reflexivity|].
  cbn [failed_rounds].
  change (Sent c :: ?l) with ([Sent c] ++ l).
  rewrite !sleeps_of_app.
  destruct n as [|m].
  - destruct (Z.ltb_spec (Z.of_nat i) (R - 1)); [lia|]. reflexivity.
  - destruct (Z.ltb_spec (Z.of_nat i) (R - 1)); [|lia].
    rewrite IH by lia.
    replace (S (S m) - 1)%nat with (S m) by lia.
    replace (S m - 1)%nat with m by lia.
    reflexivity.
Qed.

End Log.

(* ===================================================================== *)
(** * The executor, attempt by attempt *)
(* ===================================================================== *)

Section Executor.

Import AIAutoNewsSDK.

Variable self : AIAutoNewsSDK.t.
Variable c : requests.Call.

(** The round trip is logged whatever its result. *)
Lemma attempt_log (log : list event) :
  fst (attempt self c log) = log ++ [Sent c].
Proof.
  unfold attempt, mbind, io_bind, session_request, lift, raise, mret, io_ret.
  destruct (requests.transport _ _ _) as [r| |]; cbn; try reflexivity.
  destruct (parse_body r) as [d|]; cbn; [|reflexivity].
  destruct (negb (requests.ok r)); cbn.
  - destruct (py_get d _ _) as [e|]; cbn; [|reflexivity].
    destruct (py_get e _ _); cbn; [|reflexivity].
    destruct (py_get e _ _); cbn; [|reflexivity].
    destruct (py_get e _ _); cbn; reflexivity.
  - destruct (py_get d _ _); cbn; [|reflexivity].
    destruct (build_metadata r); reflexivity.
Qed.

(** A transport failure reaches the [except] clause as it is. *)
Lemma attempt_throws (log : list event) (e : requests.RequestException) :
  requests.transport (session self) (attempts_of log) c = requests.Throws e ->
  attempt self c log = (log ++ [Sent c], Raise (RequestError e)).
Proof.
  intros H. unfold attempt, mbind, io_bind, session_request. now rewrite H.
Qed.

(** What the rest of the [try] body makes of a response. *)
Lemma attempt_responds (log : list event) (r : requests.Response) :
  requests.transport (session self) (attempts_of log) c = requests.Responds r ->
  attempt self c log =
    (data ← lift (parse_body r);
     if negb (requests.ok r) then
       error ← lift (py_get data (lit "error") (JObj ∅));
       msg ← lift (py_get error (lit "message") (JStr (requests.reason r)));
       cod ← lift (py_get error (lit "code") (JStr (lit "request_failed")));
       det ← lift (py_get error (lit "details") JNull);
       raise (SDKError {| message := msg; code := cod; details := DetailData det |})
     else
       payload ← lift (py_get data (lit "data") data);
       meta ← lift (build_metadata r);
       mret {| success := true; data := payload; error := None;
               metadata := Some meta |}) (log ++ [Sent c]).
Proof.
  intros H. unfold attempt at 1, mbind at 1, io_bind at 1, session_request.
  now rewrite H.
Qed.

(** An envelope only ever comes out of the [return] statement. *)
Lemma attempt_returns (log log' : list event) (r : APIResponse) :
  attempt self c log = (log', Return r) ->
  success r = true /\ error r = None /\ is_Some (metadata r).
Proof.
  unfold attempt, mbind, io_bind, session_request, lift, raise, mret, io_ret.
  destruct (requests.transport _ _ _) as [resp| |]; cbn; try discriminate.
  destruct (parse_body resp) as [d|]; cbn; [|discriminate].
  destruct (negb (requests.ok resp)); cbn.
  - destruct (py_get d _ _) as [e|]; cbn; [|discriminate].
    destruct (py_get e _ _); cbn; [|discriminate].
    destruct (py_get e _ _); cbn; [|discriminate].
    destruct (py_get e _ _); cbn; discriminate.
  - destruct (py_get d _ _); cbn; [|discriminate].
    destruct (build_metadata resp); cbn; [|discriminate].
    intros [= _ <-]. cbn. eauto.
Qed.

(** The loop returns only what an attempt returned. *)
Lemma retry_loop_returns (indices : list Z) : forall last log log' r,
  retry_loop self c indices last log = (log', Return r) ->
  success r = true /\ error r = None /\ is_Some (metadata r).
Proof.
  induction indices as [|i rest IH]; intros last log log' r; cbn [retry_loop].
  - unfold raise. discriminate.
  - unfold try_except.
    destruct (attempt self c log) as [log1 [a|e]] eqn:Ha.
    + intros [= <- <-]. eapply attempt_returns, Ha.
    + destruct e as [e| |]; try discriminate.
      destruct (is_client_error e); [unfold raise; discriminate|].
      unfold mbind, io_bind.
      destruct (i <? retries (config self) - 1); cbn; apply IH.
Qed.

(** [n] attempts in a row that all end in the [except] clause, none of them
    with a client error: all of them are made, with the sleeps between, and
    the last captured error is the one reported. *)
Lemma retry_loop_caught (errs : nat -> requests.RequestException) (n : nat) :
  forall i last log,
  (forall j lg, (j < n)%nat -> attempts_of lg = (attempts_of log + j)%nat ->
     attempt self c lg = (lg ++ [Sent c], Raise (RequestError (errs (i + j)%nat)))) ->
  (forall j, (j < n)%nat -> is_client_error (errs (i + j)%nat) = false) ->
  retry_loop self c (Z.of_nat <$> seq i n) last log =
    (log ++ failed_rounds c (retries (config self)) i n,
     Raise (SDKError (request_failed
                        (match n with
                         | O => last
                         | S m => Some (errs (i + m)%nat)
                         end)))).
Proof.
  induction n as [|n IH]; intros i last log Hatt Hcl.
  - cbn. unfold raise. now rewrite app_nil_r.
  - cbn [seq fmap list_fmap retry_loop failed_rounds].
    unfold try_except.
    rewrite (Hatt 0%nat log) by lia.
    rewrite Nat.add_0_r.
    specialize (Hcl 0%nat ltac:(lia)) as Hc0. rewrite Nat.add_0_r in Hc0.
    rewrite Hc0.
    unfold mbind, io_bind.
    set (log1 := log ++ [Sent c]).
    assert (Hn1 : attempts_of log1 = S (attempts_of log))
      by apply attempts_of_sent.
    destruct (Z.of_nat i <? retries (config self) - 1) eqn:Hlt; cbn [time.sleep mret io_ret].
    + rewrite (IH (S i) (Some (errs i)) (log1 ++ [Slept (2 ^ Z.of_nat i)])).
      * subst log1. rewrite <- !app_assoc. cbn.
        destruct n as [|m];
          [rewrite Nat.add_0_r | replace (i + S m)%nat with (S (i + m)) by lia];
          reflexivity.
      * intros j lg Hj Hlg. replace (S i + j)%nat with (i + S j)%nat by lia.
        apply Hatt; [lia|]. rewrite Hlg, attempts_of_slept, Hn1. lia.
      * intros j Hj. replace (S i + j)%nat with (i + S j)%nat by lia.
        apply Hcl. lia.
    + rewrite (IH (S i) (Some (errs i)) log1).
      * subst log1. rewrite <- !app_assoc. cbn.
        destruct n as [|m];
          [rewrite Nat.add_0_r | replace (i + S m)%nat with (S (i + m)) by lia];
          reflexivity.
      * intros j lg Hj Hlg. replace (S i + j)%nat with (i + S j)%nat by lia.
        apply Hatt; [lia|]. rewrite Hlg, Hn1. lia.
      * intros j Hj. replace (S i + j)%nat with (i + S j)%nat by lia.
        apply Hcl. lia.
Qed.

End Executor.

Section Request.

Import AIAutoNewsSDK.

Variable self : AIAutoNewsSDK.t.
Variables method path : str.
Variables params body : option dict.
Variable headers : option (gmap str str).

Let c := call_of self method path params body headers.
Let n := Z.to_nat (retries (config self)).

Lemma range_seq (k : Z) : range k = Z.of_nat <$> seq 0 (Z.to_nat k).
Proof. reflexivity. Qed.

Lemma range_first (k : Z) : 1 <= k -> exists rest, range k = 0 :: rest.
Proof.
  intros Hk. unfold range.
  destruct (Z.to_nat k) as [|m] eqn:E; [lia|].
  cbn. eauto.
Qed.

(** With at least one attempt configured, a first attempt that does not end
    in the [except] clause decides the whole request. *)
Lemma request_first_attempt (log log1 : list event) (o : outcome APIResponse) :
  1 <= retries (config self) ->
  attempt self c log = (log1, o) ->
  (forall e, o <> Raise (RequestError e)) ->
  _request self method path params body headers log = (log1, o).
Proof.
  intros HN Ha Hne. unfold _request. fold c.
  destruct (range_first _ HN) as [rest ->].
  cbn [retry_loop]. unfold try_except. rewrite Ha.
  destruct o as [r|[e| |]]; try reflexivity.
  now destruct (Hne e).
Qed.

(** An HTTP error status on the first attempt is raised at once, whatever
    the status: the raise is not a [RequestException] and no handler of the
    loop sees it. *)
Lemma request_http_error (log : list event) (r : requests.Response) (d e : dict) :
  1 <= retries (config self) ->
  requests.transport (session self) (attempts_of log) c = requests.Responds r ->
  requests.ok r = false ->
  parse_body r = Return (JObj d) ->
  default (JObj ∅) (d !! lit "error") = JObj e ->
  _request self method path params body headers log =
    (log ++ [Sent c],
     Raise (SDKError
              {| message := default (JStr (requests.reason r)) (e !! lit "message");
                 code := default (JStr (lit "request_failed")) (e !! lit "code");
                 details := DetailData (default JNull (e !! lit "details")) |})).
Proof.
  intros HN Ht Hok Hd He.
  apply request_first_attempt; [assumption| |discriminate].
  rewrite (attempt_responds _ _ _ _ Ht).
  unfold mbind, io_bind, lift, raise. rewrite Hd, Hok. cbn [negb py_get].
  destruct (d !! lit "error") as [v|]; cbn in He; [rewrite He|injection He as <-];
    reflexivity.
Qed.

(** A [RequestException] that carries a 4xx response breaks out of the loop:
    one attempt, no sleep, and the generic error built from the exception. *)
Lemma request_client_error_break (log : list event) (e : requests.RequestException) :
  1 <= retries (config self) ->
  requests.transport (session self) (attempts_of log) c = requests.Throws e ->
  is_client_error e = true ->
  _request self method path params body headers log =
    (log ++ [Sent c], Raise (SDKError (request_failed (Some e)))).
Proof.
  intros HN Ht Hc. unfold _request. fold c.
  destruct (range_first _ HN) as [rest ->].
  cbn [retry_loop]. unfold try_except.
  rewrite (attempt_throws _ _ _ _ Ht), Hc. reflexivity.
Qed.

(** Transport failures without a client-error response attached, on every
    attempt: all [retries] attempts are made, the sleeps between them double
    from 1, and the last failure is reported as [request_failed]. *)
Lemma request_transport_failures (errs : nat -> requests.RequestException)
    (log : list event) :
  1 <= retries (config self) ->
  (forall j, (j < n)%nat ->
     requests.transport (session self) (attempts_of log + j)%nat c
       = requests.Throws (errs j)) ->
  (forall j, (j < n)%nat -> is_client_error (errs j) = false) ->
  exists added,
    _request self method path params body headers log =
      (log ++ added, Raise (SDKError (request_failed (Some (errs (n - 1)%nat)))))
    /\ attempts_of added = n
    /\ sleeps_of added = (fun k => 2 ^ Z.of_nat k) <$> seq 0 (n - 1).
Proof.
  intros HN Ht Hcl.
  exists (failed_rounds c (retries (config self)) 0 n). split; [|split].
  - unfold _request. fold c. rewrite range_seq. fold n.
    rewrite (retry_loop_caught self c errs n 0%nat None log).
    + destruct n as [|m] eqn:E; [subst n; lia|].
      now replace (S m - 1)%nat with m by lia.
    + intros j lg Hj Hlg. apply attempt_throws. rewrite Hlg. now apply Ht.
    + intros j Hj. now apply Hcl.
  - apply attempts_of_failed_rounds.
  - apply sleeps_of_failed_rounds. subst n. lia.
Qed.

End Request.

(* ===================================================================== *)
(** * The retry policy *)
(* ===================================================================== *)

(** C1 (the code departs from it).  With [retries = 3] and a server that
    answers every attempt with 503, the executor makes one round trip, never
    sleeps, and raises the error built from the response at once: the raise
    of the [try] body is not a [RequestException], so the handler that
    holds the retry and backoff logic never runs.  The claim asks for three
    attempts separated by sleeps of 1 and 2. *)
Theorem server_error_not_retried :
  let self := Fixtures.client 3
                (Fixtures.always (requests.Responds Fixtures.unavailable)) in
  let c := AIAutoNewsSDK.call_of self (lit "GET") (lit "/posts") None None None in
  exists log,
    AIAutoNewsSDK._request self (lit "GET") (lit "/posts") None None None [] =
      (log,
       Raise (SDKError {| message := JStr (lit "Service Unavailable");
                          code := JStr (lit "request_failed");
                          details := DetailData JNull |}))
    /\ log = [Sent c]
    /\ attempts_of log = 1%nat
    /\ sleeps_of log = [].
Proof.
  cbv zeta. eexists. split; [|split; [reflexivity|split; reflexivity]].
  vm_compute. reflexivity.
Qed.

(** C6.  When every one of the [retries] attempts ends in the [except]
    clause and none of them breaks out of the loop, the executor raises the
    SDK's exception with code ["request_failed"], the text of the last
    captured error as message and that error as details. *)
Theorem request_exhausted_raises_request_failed
    (self : AIAutoNewsSDK.t) (method path : str) (params body : option dict)
    (headers : option (gmap str str))
    (errs : nat -> requests.RequestException) (log : list event) :
  let c := AIAutoNewsSDK.call_of self method path params body headers in
  let n := Z.to_nat (retries (AIAutoNewsSDK.config self)) in
  let last := match n with O => None | S m => Some (errs m) end in
  (forall j lg, (j < n)%nat -> attempts_of lg = (attempts_of log + j)%nat ->
     AIAutoNewsSDK.attempt self c lg
       = (lg ++ [Sent c], Raise (RequestError (errs j)))) ->
  (forall j, (j < n)%nat -> AIAutoNewsSDK.is_client_error (errs j) = false) ->
  exists added,
    AIAutoNewsSDK._request self method path params body headers log =
      (log ++ added,
       Raise (SDKError
                {| message := JStr (AIAutoNewsSDK.str_of_error last);
                   code := JStr (lit "request_failed");
                   details := AIAutoNewsSDK.detail_of_error last |}))
    /\ attempts_of added = n.
Proof.
  intros c n last Hatt Hcl.
  exists (failed_rounds c (retries (AIAutoNewsSDK.config self)) 0 n). split.
  - unfold AIAutoNewsSDK._request. fold c. rewrite range_seq. fold n.
    now rewrite (retry_loop_caught self c errs n 0%nat None log).
  - apply attempts_of_failed_rounds.
Qed.

Lemma request_exhausted_witness :
  let self := Fixtures.client 3
                (Fixtures.always (requests.Throws Fixtures.connection_refused)) in
  exists added,
    AIAutoNewsSDK._request self (lit "GET") (lit "/posts") None None None [] =
      ([] ++ added,
       Raise (SDKError
                {| message := JStr (lit "Connection refused");
                   code := JStr (lit "request_failed");
                   details := DetailError Fixtures.connection_refused |}))
    /\ attempts_of added = 3%nat.
Proof.
  apply (request_exhausted_raises_request_failed
           (Fixtures.client 3
              (Fixtures.always (requests.Throws Fixtures.connection_refused)))
           (lit "GET") (lit "/posts") None None None
           (fun _ => Fixtures.connection_refused) []).
  - intros j lg _ _. reflexivity.
  - intros j _. reflexivity.
Defined.

(* ===================================================================== *)
(** * Error responses *)
(* ===================================================================== *)

(** X19.  When the first attempt receives a 4xx response whose body is empty
    or decodes to a JSON object [d], and the [error] member of [d], if there
    is one, is an object [e], the executor makes exactly one round trip
    whatever [retries >= 1] is configured, does not sleep, and raises the
    SDK's exception with the fields of [e]: [message] (the reason phrase
    when absent), [code] (["request_failed"] when absent) and [details]. *)
Theorem client_error_single_attempt
    (self : AIAutoNewsSDK.t) (method path : str) (params body : option dict)
    (headers : option (gmap str str)) (log : list event)
    (r : requests.Response) (d e : dict) :
  let c := AIAutoNewsSDK.call_of self method path params body headers in
  1 <= retries (AIAutoNewsSDK.config self) ->
  requests.transport (AIAutoNewsSDK.session self) (attempts_of log) c
    = requests.Responds r ->
  400 <= requests.status_code r < 500 ->
  AIAutoNewsSDK.parse_body r = Return (JObj d) ->
  default (JObj ∅) (d !! lit "error") = JObj e ->
  exists added,
    AIAutoNewsSDK._request self method path params body headers log =
      (log ++ added,
       Raise (SDKError
                {| message := default (JStr (requests.reason r)) (e !! lit "message");
                   code := default (JStr (lit "request_failed")) (e !! lit "code");
                   details := DetailData (default JNull (e !! lit "details")) |}))
    /\ attempts_of added = 1%nat
    /\ sleeps_of added = [].
Proof.
  intros c HN Ht Hs Hd He. exists [Sent c]. split; [|split; reflexivity].
  apply request_http_error with (d := d); try assumption.
  unfold requests.ok.
  destruct (Z.leb_spec 400 (requests.status_code r)); [|lia].
  destruct (Z.ltb_spec (requests.status_code r) 600); [reflexivity|lia].
Qed.

(** The scenario of the specification: 404 with code ["not_found"] and
    message ["missing"] in the body, three attempts configured. *)
Lemma client_error_single_attempt_witness :
  let self := Fixtures.client 3
                (Fixtures.always (requests.Responds Fixtures.not_found)) in
  exists added,
    AIAutoNewsSDK._request self (lit "GET") (lit "/posts/x") None None None [] =
      ([] ++ added,
       Raise (SDKError {| message := JStr (lit "missing");
                          code := JStr (lit "not_found");
                          details := DetailData JNull |}))
    /\ attempts_of added = 1%nat
    /\ sleeps_of added = [].
Proof.
  exact (client_error_single_attempt
           (Fixtures.client 3
              (Fixtures.always (requests.Responds Fixtures.not_found)))
           (lit "GET") (lit "/posts/x") None None None [] Fixtures.not_found
           {[ lit "error" :=
                JObj {[ lit "code" := JStr (lit "not_found");
                        lit "message" := JStr (lit "missing") ]} ]}
           {[ lit "code" := JStr (lit "not_found");
              lit "message" := JStr (lit "missing") ]}
           ltac:(cbn; lia) ltac:(reflexivity) ltac:(cbn; lia)
           ltac:(reflexivity) ltac:(reflexivity)).
Defined.

(** C3 (the code departs from it).  With [retries = 3], a 404 whose body is
    a page that is not JSON is attempted three times, with sleeps of 1 and 2
    between the attempts, when the library reports the decode error as a
    [RequestException]: the body is decoded inside the [try] before the
    status is looked at, the handler takes the decode error for a failure of
    the transport, and its test for client errors finds no response on it.
    The caller gets the generic error, with nothing of the response in it.
    The claim asks for one attempt. *)
Theorem client_error_page_retried :
  let self := Fixtures.client 3
                (Fixtures.always (requests.Responds Fixtures.not_found_page)) in
  let c := AIAutoNewsSDK.call_of self (lit "GET") (lit "/posts/x") None None None in
  AIAutoNewsSDK._request self (lit "GET") (lit "/posts/x") None None None [] =
    ([Sent c; Slept 1; Sent c; Slept 2; Sent c],
     Raise (SDKError
              {| message := JStr (lit "Expecting value");
                 code := JStr (lit "request_failed");
                 details :=
                   DetailError
                     {| requests.exc_class := requests.InvalidJSONError;
                        requests.exc_str := lit "Expecting value";
                        requests.exc_response := None |} |}))
  /\ requests.status_code Fixtures.not_found_page = 404
  /\ attempts_of [Sent c; Slept 1; Sent c; Slept 2; Sent c] = 3%nat
  /\ sleeps_of [Sent c; Slept 1; Sent c; Slept 2; Sent c] = [1; 2].
Proof.
  cbv zeta. split; [vm_compute; reflexivity|].
  split; [reflexivity|]. split; reflexivity.
Qed.

(** C4, amended.  A success response whose non-empty body is not JSON never
    yields the code ["parse_error"].  If the library reports the decode
    error as an exception of its own, the attempt counts as a caught failure:
    when every attempt ends so, all [retries] attempts are made and the
    SDK's exception is raised with code ["request_failed"], the decode
    error's text as message and the decode error as details.  If the decode
    error is the plain [ValueError] subclass, it reaches the caller
    unchanged after the first attempt. *)
Theorem malformed_success_body
    (self : AIAutoNewsSDK.t) (method path : str) (params body : option dict)
    (headers : option (gmap str str)) (log : list event)
    (resp : nat -> requests.Response) (lib : bool) (text : nat -> str) :
  let c := AIAutoNewsSDK.call_of self method path params body headers in
  let n := Z.to_nat (retries (AIAutoNewsSDK.config self)) in
  1 <= retries (AIAutoNewsSDK.config self) ->
  (forall j, (j < n)%nat ->
     requests.transport (AIAutoNewsSDK.session self) (attempts_of log + j)%nat c
       = requests.Responds (resp j)
     /\ requests.ok (resp j) = true
     /\ requests.content (resp j) <> []
     /\ requests.json_ (resp j) = requests.Malformed lib (text j)) ->
  exists added,
    AIAutoNewsSDK._request self method path params body headers log =
      (log ++ added,
       if lib then
         Raise (SDKError
                  {| message := JStr (text (n - 1)%nat);
                     code := JStr (lit "request_failed");
                     details :=
                       DetailError
                         {| requests.exc_class := requests.InvalidJSONError;
                            requests.exc_str := text (n - 1)%nat;
                            requests.exc_response := None |} |})
       else Raise (Builtin JSONDecodeError))
    /\ attempts_of added = (if lib then n else 1%nat).
Proof.
  intros c n HN H.
  assert (Hbody : forall j, (j < n)%nat ->
            AIAutoNewsSDK.parse_body (resp j) =
              if lib
              then Raise (RequestError
                            {| requests.exc_class := requests.InvalidJSONError;
                               requests.exc_str := text j;
                               requests.exc_response := None |})
              else Raise (Builtin JSONDecodeError)).
  { intros j Hj. destruct (H j Hj) as (_ & _ & Hc & Hj').
    unfold AIAutoNewsSDK.parse_body. rewrite Hj'.
    destruct (requests.content (resp j)); [congruence|].
    destruct lib; reflexivity. }
  destruct lib.
  - exists (failed_rounds c (retries (AIAutoNewsSDK.config self)) 0 n). split.
    + unfold AIAutoNewsSDK._request. fold c. rewrite range_seq. fold n.
      rewrite (retry_loop_caught self c
                 (fun j => {| requests.exc_class := requests.InvalidJSONError;
                              requests.exc_str := text j;
                              requests.exc_response := None |})
                 n 0%nat None log).
      * destruct n as [|m] eqn:E; [subst n; lia|].
        now replace (S m - 1)%nat with m by lia.
      * intros j lg Hj Hlg. destruct (H j Hj) as (Ht & _).
        rewrite <- Hlg in Ht.
        rewrite (attempt_responds _ _ _ _ Ht).
        unfold mbind, io_bind, lift. now rewrite (Hbody j Hj).
      * reflexivity.
    + apply attempts_of_failed_rounds.
  - exists [Sent c]. split; [|reflexivity].
    assert (H0 : (0 < n)%nat) by (subst n; lia).
    destruct (H 0%nat H0) as (Ht & _). rewrite Nat.add_0_r in Ht.
    apply request_first_attempt; [assumption| |discriminate].
    fold c. rewrite (attempt_responds _ _ _ _ Ht).
    unfold mbind, io_bind, lift. now rewrite (Hbody 0%nat H0).
Qed.

Lemma malformed_success_body_witness :
  let self := Fixtures.client 3
                (Fixtures.always (requests.Responds (Fixtures.garbled true))) in
  exists added,
    AIAutoNewsSDK._request self (lit "GET") (lit "/posts") None None None [] =
      ([] ++ added,
       Raise (SDKError
                {| message := JStr (lit "Expecting value");
                   code := JStr (lit "request_failed");
                   details :=
                     DetailError
                       {| requests.exc_class := requests.InvalidJSONError;
                          requests.exc_str := lit "Expecting value";
                          requests.exc_response := None |} |}))
    /\ attempts_of added = 3%nat.
Proof.
  apply (malformed_success_body
           (Fixtures.client 3
              (Fixtures.always (requests.Responds (Fixtures.garbled true))))
           (lit "GET") (lit "/posts") None None None []
           (fun _ => Fixtures.garbled true) true
           (fun _ => lit "Expecting value")).
  - cbn; lia.
  - intros j _. repeat split; try reflexivity. discriminate.
Defined.

(** C4 as stated fails: on a 200 response with a garbled body the code
    raised is ["request_failed"] after three attempts, or the caller gets the
    decode error itself; ["parse_error"] is produced in neither case. *)
Lemma malformed_success_body_not_parse_error :
  (exists log,
     AIAutoNewsSDK._request
       (Fixtures.client 3
          (Fixtures.always (requests.Responds (Fixtures.garbled true))))
       (lit "GET") (lit "/posts") None None None [] =
       (log,
        Raise (SDKError
                 {| message := JStr (lit "Expecting value");
                    code := JStr (lit "request_failed");
                    details :=
                      DetailError
                        {| requests.exc_class := requests.InvalidJSONError;
                           requests.exc_str := lit "Expecting value";
                           requests.exc_response := None |} |}))
     /\ attempts_of log = 3%nat)
  /\ (exists log,
        AIAutoNewsSDK._request
          (Fixtures.client 3
             (Fixtures.always (requests.Responds (Fixtures.garbled false))))
          (lit "GET") (lit "/posts") None None None [] =
          (log, Raise (Builtin JSONDecodeError)))
  /\ JStr (lit "request_failed") <> JStr (lit "parse_error").
Proof.
  split; [|split].
  - eexists. split; [vm_compute; reflexivity|reflexivity].
  - eexists. vm_compute. reflexivity.
  - discriminate.
Qed.

(* ===================================================================== *)
(** * The success envelope *)
(* ===================================================================== *)

(** C5, amended.  For a success response on the first attempt whose body is
    empty or decodes to an object [d]: [request_id] and [reset] are the
    values of [x-request-id] and [x-ratelimit-reset], the empty string when
    the header is missing; [remaining] is 0 when [x-ratelimit-remaining] is
    missing and its integer value when it is an integer string.  When that
    header is present and is not an integer string, no envelope is built:
    [ValueError] reaches the caller. *)
Theorem success_metadata
    (self : AIAutoNewsSDK.t) (method path : str) (params body : option dict)
    (headers : option (gmap str str)) (log : list event)
    (r : requests.Response) (d : dict) :
  let c := AIAutoNewsSDK.call_of self method path params body headers in
  let h := requests.headers r in
  let envelope (remaining : Z) :=
    {| success := true;
       data := default (JObj d) (d !! lit "data");
       error := None;
       metadata :=
         Some {[ lit "request_id" := JStr (default [] (h !! lit "x-request-id"));
                 lit "rate_limit" :=
                   JObj {[ lit "remaining" := JInt remaining;
                           lit "reset" :=
                             JStr (default [] (h !! lit "x-ratelimit-reset")) ]} ]} |} in
  1 <= retries (AIAutoNewsSDK.config self) ->
  requests.transport (AIAutoNewsSDK.session self) (attempts_of log) c
    = requests.Responds r ->
  requests.ok r = true ->
  AIAutoNewsSDK.parse_body r = Return (JObj d) ->
  AIAutoNewsSDK._request self method path params body headers log =
    (log ++ [Sent c],
     match h !! lit "x-ratelimit-remaining" with
     | None => Return (envelope 0)
     | Some v =>
         match int_of_str v with
         | Some k => Return (envelope k)
         | None => Raise (Builtin ValueError)
         end
     end).
Proof.
  intros c h envelope HN Ht Hok Hd.
  assert (Hmeta : forall o : outcome APIResponse, (forall e, o <> Raise (RequestError e)) ->
            AIAutoNewsSDK.attempt self c log = (log ++ [Sent c], o) ->
            AIAutoNewsSDK._request self method path params body headers log
              = (log ++ [Sent c], o)).
  { intros o Ho Ha. now apply request_first_attempt. }
  rewrite (attempt_responds _ _ _ _ Ht) in Hmeta.
  unfold mbind, io_bind, lift, mret, io_ret in Hmeta.
  rewrite Hd, Hok in Hmeta. cbn [negb py_get] in Hmeta.
  unfold AIAutoNewsSDK.build_metadata in Hmeta. fold h in Hmeta.
  destruct (h !! lit "x-ratelimit-remaining") as [v|].
  - destruct (int_of_str v) as [k|]; apply Hmeta; try discriminate; reflexivity.
  - apply Hmeta; [discriminate|reflexivity].
Qed.

Lemma success_metadata_witness :
  let self := Fixtures.client 3
                (Fixtures.always (requests.Responds (Fixtures.limited "41"))) in
  let c := AIAutoNewsSDK.call_of self (lit "GET") (lit "/posts") None None None in
  AIAutoNewsSDK._request self (lit "GET") (lit "/posts") None None None [] =
    ([Sent c],
     Return {| success := true;
               data := JObj ∅;
               error := None;
               metadata :=
                 Some {[ lit "request_id" := JStr [];
                         lit "rate_limit" :=
                           JObj {[ lit "remaining" := JInt 41;
                                   lit "reset" := JStr [] ]} ]} |}).
Proof.
  exact (success_metadata
           (Fixtures.client 3
              (Fixtures.always (requests.Responds (Fixtures.limited "41"))))
           (lit "GET") (lit "/posts") None None None []
           (Fixtures.limited "41") ∅
           ltac:(cbn; lia) ltac:(reflexivity) ltac:(reflexivity)
           ltac:(reflexivity)).
Defined.

(** C5 as stated fails: with [x-ratelimit-remaining: abc] on a 200 response
    the executor does not return an envelope with [remaining = 0]; it raises
    [ValueError]. *)
Lemma non_integer_remaining_raises :
  let self := Fixtures.client 3
                (Fixtures.always (requests.Responds (Fixtures.limited "abc"))) in
  let c := AIAutoNewsSDK.call_of self (lit "GET") (lit "/posts") None None None in
  AIAutoNewsSDK._request self (lit "GET") (lit "/posts") None None None [] =
    ([Sent c], Raise (Builtin ValueError)).
Proof. vm_compute. reflexivity. Qed.

(** C9.  Every envelope the executor returns has [success = True], no
    [error] and a [metadata] dictionary: a run ends either with such an
    envelope or with a raised exception. *)
Theorem request_returns_success_envelope
    (self : AIAutoNewsSDK.t) (method path : str) (params body : option dict)
    (headers : option (gmap str str)) (log log' : list event) (r : APIResponse) :
  AIAutoNewsSDK._request self method path params body headers log = (log', Return r) ->
  success r = true /\ error r = None /\ metadata r <> None.
Proof.
  intros H. unfold AIAutoNewsSDK._request in H.
  apply retry_loop_returns in H. destruct H as (Hs & He & Hm).
  repeat split; try assumption.
  intros Hn. rewrite Hn in Hm. now destruct Hm.
Qed.

Lemma request_returns_success_envelope_witness :
  let r := {| success := true;
              data := JObj {[ lit "id" := JStr (lit "p1");
                              lit "title" := JStr (lit "T") ]};
              error := None;
              metadata :=
                Some {[ lit "request_id" := JStr [];
                        lit "rate_limit" :=
                          JObj {[ lit "remaining" := JInt 0;
                                  lit "reset" := JStr [] ]} ]} |} in
  success r = true /\ error r = None /\ metadata r <> None.
Proof.
  cbv zeta.
  eapply (request_returns_success_envelope
            (Fixtures.client 3
               (Fixtures.always (requests.Responds Fixtures.partial_post)))
            (lit "GET") (lit "/posts/p1") None None None []).
  vm_compute. reflexivity.
Defined.

(* ===================================================================== *)
(** * Webhook signatures *)
(* ===================================================================== *)

Section Signature.

Local Open Scope N_scope.

Lemma be_bytes_octets (k : nat) (x : N) : Forall (fun b => b < 256) (hashlib.be_bytes k x).
Proof.
  induction k as [|k IH]; cbn [hashlib.be_bytes]; constructor; [|exact IH].
  change 255 with (N.ones 8). rewrite N.land_ones.
  apply N.mod_lt. discriminate.
Qed.

Lemma sha256_octets (msg : bytes) : Forall (fun b => b < 256) (hashlib.sha256 msg).
Proof.
  unfold hashlib.sha256. cbv zeta.
  generalize (hashlib.blocks (length (hashlib.pad msg) / 64) hashlib.H0 (hashlib.pad msg)).
  intros ws. induction ws as [|w ws IH]; cbn [flat_map]; [constructor|].
  apply Forall_app. split; [apply be_bytes_octets|exact IH].
Qed.

Lemma hex_digit_ascii (d : N) : d < 16 -> hashlib.hex_digit d < 128.
Proof.
  intros H. unfold hashlib.hex_digit. destruct (N.ltb_spec d 10); lia.
Qed.

Lemma hexdigest_ascii (digest : bytes) :
  Forall (fun b => b < 256) digest -> is_ascii (hashlib.hexdigest digest) = true.
Proof.
  induction 1 as [|b bs Hb _ IH]; [reflexivity|].
  unfold hashlib.hexdigest. cbn [flat_map app is_ascii forallb].
  fold (hashlib.hexdigest bs). fold (is_ascii (hashlib.hexdigest bs)). rewrite IH.
  assert (H1 : hashlib.hex_digit (N.shiftr b 4) < 128).
  { apply hex_digit_ascii. rewrite N.shiftr_div_pow2.
    apply N.Div0.div_lt_upper_bound. exact Hb. }
  assert (H2 : hashlib.hex_digit (N.land b 15) < 128).
  { apply hex_digit_ascii. change 15 with (N.ones 4). rewrite N.land_ones.
    apply N.mod_lt. discriminate. }
  apply N.ltb_lt in H1, H2. now rewrite H1, H2.
Qed.

Lemma hmac_hexdigest_ascii (key msg : bytes) :
  is_ascii (hashlib.hexdigest (hmac.new key msg)) = true.
Proof. apply hexdigest_ascii. unfold hmac.new. cbv zeta. apply sha256_octets. Qed.

Lemma testbit_small (a k : N) : a < 2 ^ k -> N.testbit a k = false.
Proof.
  intros H. destruct (N.eq_dec a 0) as [->|Ha]; [apply N.bits_0|].
  apply N.bits_above_log2. apply N.log2_lt_pow2; [lia|exact H].
Qed.

(** Flipping a bit below the eighth keeps an ASCII character ASCII; flipping
    a higher one does not. *)
Lemma flipped_ascii (ch bit : N) :
  ch < 128 -> (N.lxor ch (N.shiftl 1 bit) <? 128) = (bit <? 7).
Proof.
  intros Hc. rewrite N.shiftl_1_l.
  destruct (N.ltb_spec bit 7) as [Hb|Hb].
  - apply N.ltb_lt.
    destruct (N.eq_dec (N.lxor ch (2 ^ bit)) 0) as [->|Hx]; [lia|].
    change 128 with (2 ^ 7). apply N.log2_lt_pow2; [lia|].
    eapply N.le_lt_trans; [apply N.log2_lxor|].
    apply N.max_lub_lt.
    + destruct (N.eq_dec ch 0) as [->|Hc0]; [cbn; lia|].
      apply N.log2_lt_pow2; [lia|exact Hc].
    + rewrite N.log2_pow2 by lia. exact Hb.
  - apply N.ltb_ge. apply N.le_ngt. intros Hlt.
    assert (Hhigh : N.lxor ch (2 ^ bit) < 2 ^ bit).
    { eapply N.lt_le_trans; [exact Hlt|].
      change 128 with (2 ^ 7). apply N.pow_le_mono_r; [discriminate|exact Hb]. }
    apply testbit_small in Hhigh.
    rewrite N.lxor_spec, N.pow2_bits_true in Hhigh.
    rewrite testbit_small in Hhigh; [discriminate|].
    eapply N.lt_le_trans; [exact Hc|].
    change 128 with (2 ^ 7). apply N.pow_le_mono_r; [discriminate|exact Hb].
Qed.

Lemma flipped_differs (ch bit : N) : N.lxor ch (N.shiftl 1 bit) <> ch.
Proof.
  intros H.
  assert (Hz : N.lxor ch (N.lxor ch (N.shiftl 1 bit)) = 0)
    by (rewrite H; apply N.lxor_nilpotent).
  rewrite <- N.lxor_assoc, N.lxor_nilpotent, N.lxor_0_l, N.shiftl_1_l in Hz.
  pose proof (N.pow_nonzero 2 bit). lia.
Qed.

End Signature.

Lemma is_ascii_insert (s : str) : forall (i : nat) (ch ch' : N),
  s !! i = Some ch -> is_ascii s = true ->
  is_ascii (<[i := ch']> s) = (ch' <? 128)%N.
Proof.
  unfold is_ascii.
  induction s as [|x s IH]; intros [|i] ch ch' Hl Ha; try discriminate;
    simpl in Ha; apply andb_prop in Ha; destruct Ha as [Hx Hs]; simpl.
  - rewrite Hs. apply andb_true_r.
  - rewrite Hx. simpl. eapply IH; eassumption.
Qed.

Lemma is_ascii_lookup (s : str) (i : nat) (ch : N) :
  s !! i = Some ch -> is_ascii s = true -> (ch < 128)%N.
Proof.
  unfold is_ascii. revert i.
  induction s as [|x s IH]; intros [|i] Hl Ha; try discriminate;
    simpl in Ha; apply andb_prop in Ha; destruct Ha as [Hx Hs].
  - injection Hl as <-. now apply N.ltb_lt.
  - eapply IH; eassumption.
Qed.

Lemma insert_differs (s : str) (i : nat) (ch ch' : N) :
  s !! i = Some ch -> ch' <> ch -> <[i := ch']> s <> s.
Proof.
  intros Hl Hne Heq.
  assert (H : <[i := ch']> s !! i = Some ch').
  { apply list_lookup_insert_eq. eapply lookup_lt_Some, Hl. }
  rewrite Heq, Hl in H. congruence.
Qed.

(** The comparison on two strings of which the second is a hex digest. *)
Lemma verify_encoded (payload signature secret : str) (key msg : bytes) :
  encode secret = Some key -> encode payload = Some msg ->
  AIAutoNewsSDK.verify_webhook_signature payload signature secret =
    if is_ascii signature
    then Return (str_eqb signature (hashlib.hexdigest (hmac.new key msg)))
    else Raise (Builtin TypeError).
Proof.
  intros Hk Hm. unfold AIAutoNewsSDK.verify_webhook_signature, hmac.compare_digest.
  rewrite Hk, Hm, hmac_hexdigest_ascii, andb_true_r.
  now destruct (is_ascii signature).
Qed.

(** C2, amended.  The check returns [True] exactly when the signature is
    the hexadecimal HMAC-SHA256 of the UTF-8 payload under the UTF-8
    secret.  A signature that is ASCII and differs from it is answered
    [False]; one with a non-ASCII character raises [TypeError].  So a bit
    flipped in a valid signature gives [False] when the bit is one of the low
    seven and [TypeError] otherwise.  A payload or secret that cannot be
    encoded raises [UnicodeEncodeError]. *)
Theorem verify_webhook_signature_spec (payload signature secret : str) :
  (AIAutoNewsSDK.verify_webhook_signature payload signature secret = Return true
   <-> exists key msg,
         encode secret = Some key /\ encode payload = Some msg
         /\ signature = hashlib.hexdigest (hmac.new key msg))
  /\ (forall key msg,
        encode secret = Some key -> encode payload = Some msg ->
        AIAutoNewsSDK.verify_webhook_signature payload signature secret =
          if is_ascii signature
          then Return (bool_decide
                         (signature = hashlib.hexdigest (hmac.new key msg)))
          else Raise (Builtin TypeError))
  /\ (AIAutoNewsSDK.verify_webhook_signature payload signature secret = Return true ->
      forall (i : nat) (bit : N), (i < length signature)%nat ->
        AIAutoNewsSDK.verify_webhook_signature payload (flip_bit signature i bit) secret =
          if (bit <? 7)%N then Return false else Raise (Builtin TypeError))
  /\ (encode secret = None \/ encode payload = None ->
      AIAutoNewsSDK.verify_webhook_signature payload signature secret =
        Raise (Builtin UnicodeEncodeError)).
Proof.
  assert (Htrue : AIAutoNewsSDK.verify_webhook_signature payload signature secret = Return true ->
            exists key msg,
              encode secret = Some key /\ encode payload = Some msg
              /\ signature = hashlib.hexdigest (hmac.new key msg)).
  { intros H. destruct (encode secret) as [key|] eqn:Hk;
      [|unfold AIAutoNewsSDK.verify_webhook_signature in H; now rewrite Hk in H].
    destruct (encode payload) as [msg|] eqn:Hm;
      [|unfold AIAutoNewsSDK.verify_webhook_signature in H; now rewrite Hk, Hm in H].
    exists key, msg. repeat split.
    rewrite (verify_encoded _ _ _ _ _ Hk Hm) in H.
    destruct (is_ascii signature); [|discriminate].
    injection H as H. unfold str_eqb in H.
    now apply bool_decide_eq_true in H. }
  split; [|split; [|split]].
  - split; [exact Htrue|].
    intros (key & msg & Hk & Hm & ->).
    rewrite (verify_encoded _ _ _ _ _ Hk Hm), hmac_hexdigest_ascii.
    unfold str_eqb. now rewrite bool_decide_eq_true_2.
  - intros key msg Hk Hm. apply verify_encoded; assumption.
  - intros H i bit Hi. destruct (Htrue H) as (key & msg & Hk & Hm & Hs).
    rewrite (verify_encoded _ _ _ _ _ Hk Hm).
    assert (Ha : is_ascii signature = true)
      by (rewrite Hs; apply hmac_hexdigest_ascii).
    destruct (lookup_lt_is_Some_2 signature i Hi) as [ch Hch].
    unfold flip_bit. rewrite Hch.
    rewrite (is_ascii_insert _ _ _ _ Hch Ha).
    rewrite flipped_ascii by (eapply is_ascii_lookup; eassumption).
    destruct (bit <? 7)%N; [|reflexivity].
    unfold str_eqb. rewrite bool_decide_eq_false_2; [reflexivity|].
    rewrite <- Hs. eapply insert_differs; [exact Hch|apply flipped_differs].
  - unfold AIAutoNewsSDK.verify_webhook_signature.
    intros [->| ->]; [reflexivity|]. now destruct (encode secret).
Qed.

(** C2 as stated fails on mutations that leave the ASCII range or the
    encodable range.  With payload [abc] and secret [s], the valid signature
    with the eighth bit of its first character flipped raises [TypeError].
    With the one-character payload U+5800 and its valid signature, flipping
    bit 15 of the payload gives the lone surrogate U+D800 and the check
    raises [UnicodeEncodeError].  Neither returns [False]. *)
Lemma verify_mutation_raises :
  (AIAutoNewsSDK.verify_webhook_signature
     (lit "abc") Fixtures.abc_signature (lit "s")
   = Return true
   /\ AIAutoNewsSDK.verify_webhook_signature
        (lit "abc") (flip_bit Fixtures.abc_signature 0 7) (lit "s")
      = Raise (Builtin TypeError))
  /\ (let signature := hashlib.hexdigest (hmac.new (lit "s") [229; 160; 128]%N) in
      AIAutoNewsSDK.verify_webhook_signature [22528%N] signature (lit "s")
      = Return true
      /\ AIAutoNewsSDK.verify_webhook_signature
           (flip_bit [22528%N] 0 15) signature (lit "s")
         = Raise (Builtin UnicodeEncodeError)).
Proof. repeat split; vm_compute; reflexivity. Qed.

(* ===================================================================== *)
(** * The resource modules: what they send *)
(* ===================================================================== *)

(** C8.  With every optional argument left unset, each method that has
    optional arguments is the executor call with exactly the required keys
    in its query or body, and none of the values is [None]; and
    [Posts.list(category="tech")] sends [category] and no [published]. *)
Theorem unset_optionals_omitted (self : AIAutoNewsSDK.t) :
  (forall page limit,
     Posts.list self page limit None None =
       (response ← AIAutoNewsSDK._request self (lit "GET") (lit "/posts")
                     (Some {[ lit "page" := JInt page; lit "limit" := JInt limit ]})
                     None None;
        lift (Post_list (data response))))
  /\ (forall query limit,
        Posts.search self query limit None =
          (response ← AIAutoNewsSDK._request self (lit "GET") (lit "/search")
                        (Some {[ lit "q" := JStr query; lit "limit" := JInt limit ]})
                        None None;
           lift (Post_list (data response))))
  /\ (forall topic content_type,
        Generation.create self topic content_type None None None None =
          (response ← AIAutoNewsSDK._request self (lit "POST") (lit "/generate") None
                        (Some {[ lit "topic" := JStr topic;
                                 lit "type" := JStr (ContentType_value content_type) ]})
                        None;
           lift (Post_kwargs (data response))))
  /\ Analytics.usage self None None None =
       (response ← AIAutoNewsSDK._request self (lit "GET") (lit "/analytics/usage")
                     (Some ∅) None None;
        mret (data response))
  /\ (forall name,
        APIKeys.create self name None None =
          (response ← AIAutoNewsSDK._request self (lit "POST") (lit "/apikeys") None
                        (Some {[ lit "name" := JStr name ]}) None;
           mret (data response)))
  /\ (forall url events,
        Webhooks.create self url events None =
          (response ← AIAutoNewsSDK._request self (lit "POST") (lit "/webhooks") None
                        (Some {[ lit "url" := JStr url;
                                 lit "events" := JList (JStr <$> events) ]})
                        None;
           mret (data response)))
  /\ (forall page limit,
        Posts.list self page limit (Some (lit "tech")) None =
          (response ← AIAutoNewsSDK._request self (lit "GET") (lit "/posts")
                        (Some {[ lit "page" := JInt page; lit "limit" := JInt limit;
                                 lit "category" := JStr (lit "tech") ]})
                        None None;
           lift (Post_list (data response)))
        /\ dom (Posts.list_params page limit (Some (lit "tech")) None)
             = {[ lit "page"; lit "limit"; lit "category" ]}
        /\ Posts.list_params page limit (Some (lit "tech")) None !! lit "category"
             = Some (JStr (lit "tech"))
        /\ Posts.list_params page limit (Some (lit "tech")) None !! lit "published"
             = None)
  /\ (forall page limit,
        dom (Posts.list_params page limit None None) = {[ lit "page"; lit "limit" ]})
  /\ (forall query limit,
        dom (Posts.search_params query limit None) = {[ lit "q"; lit "limit" ]})
  /\ (forall topic content_type,
        dom (Generation.create_body topic content_type None None None None)
          = {[ lit "topic"; lit "type" ]})
  /\ dom (Analytics.usage_params None None None) = ∅
  /\ (forall name, dom (APIKeys.create_body name None None) = {[ lit "name" ]})
  /\ (forall url events,
        dom (Webhooks.create_body url events None) = {[ lit "url"; lit "events" ]}).
Proof.
  repeat split; intros; try reflexivity.
  all: try (unfold Posts.list_params, Posts.search_params, Generation.create_body,
              Analytics.usage_params, APIKeys.create_body, Webhooks.create_body;
            cbn [when_truthy when_not_None truthy_str lit];
            rewrite ?dom_insert_L, ?dom_empty_L; set_solver).
Qed.

(** C10.  An optional argument tested by truthiness is left out of the
    payload when it is given a falsy value, exactly as when it is unset:
    [target_length=0] and [tone=""] in [Generation.create], [category=""] in
    [Posts.list], and likewise for every other argument tested that way.
    [published], tested with [is not None], is sent when it is [False].
    Each method is the executor call with the payload so described: with
    every such argument falsy it sends the required keys only, and
    [Posts.list] with [published=False] sends [published] with the value
    [False]. *)
Theorem falsy_optionals_omitted (self : AIAutoNewsSDK.t) :
  (forall topic content_type urgency tone audience,
     Generation.create self topic content_type urgency (Some 0) tone audience
       = Generation.create self topic content_type urgency None tone audience
     /\ Generation.create_body topic content_type urgency (Some 0) tone audience
          !! lit "targetLength" = None)
  /\ (forall topic content_type urgency target_length audience,
        Generation.create self topic content_type urgency target_length (Some []) audience
          = Generation.create self topic content_type urgency target_length None audience
        /\ Generation.create_body topic content_type urgency target_length (Some []) audience
             !! lit "tone" = None)
  /\ (forall topic content_type urgency target_length tone,
        Generation.create self topic content_type urgency target_length tone (Some [])
          = Generation.create self topic content_type urgency target_length tone None)
  /\ (forall page limit published,
        Posts.list self page limit (Some []) published
          = Posts.list self page limit None published
        /\ Posts.list_params page limit (Some []) published !! lit "category" = None)
  /\ (forall query limit,
        Posts.search self query limit (Some []) = Posts.search self query limit None)
  /\ (forall start end_ metric,
        Analytics.usage self (Some []) end_ metric = Analytics.usage self None end_ metric
        /\ Analytics.usage self start (Some []) metric = Analytics.usage self start None metric
        /\ Analytics.usage self start end_ (Some []) = Analytics.usage self start end_ None)
  /\ (forall name scopes expires_at,
        APIKeys.create self name (Some []) expires_at
          = APIKeys.create self name None expires_at
        /\ APIKeys.create self name scopes (Some [])
             = APIKeys.create self name scopes None)
  /\ (forall url events,
        Webhooks.create self url events (Some []) = Webhooks.create self url events None)
  /\ (forall page limit category,
        Posts.list_params page limit category (Some false) !! lit "published"
          = Some (JBool false)
        /\ Posts.list_params page limit category None !! lit "published" = None)
  /\ (forall page limit category,
        Posts.list self page limit category (Some false) =
          (response ← AIAutoNewsSDK._request self (lit "GET") (lit "/posts")
                        (Some (<[lit "published" := JBool false]>
                                 (Posts.list_params page limit category None)))
                        None None;
           lift (Post_list (data response))))
  /\ (forall page limit,
        Posts.list self page limit (Some []) (Some false) =
          (response ← AIAutoNewsSDK._request self (lit "GET") (lit "/posts")
                        (Some {[ lit "page" := JInt page; lit "limit" := JInt limit;
                                 lit "published" := JBool false ]})
                        None None;
           lift (Post_list (data response))))
  /\ (forall page limit,
        Posts.list self page limit (Some []) None =
          (response ← AIAutoNewsSDK._request self (lit "GET") (lit "/posts")
                        (Some {[ lit "page" := JInt page; lit "limit" := JInt limit ]})
                        None None;
           lift (Post_list (data response))))
  /\ (forall query limit,
        Posts.search self query limit (Some []) =
          (response ← AIAutoNewsSDK._request self (lit "GET") (lit "/search")
                        (Some {[ lit "q" := JStr query; lit "limit" := JInt limit ]})
                        None None;
           lift (Post_list (data response))))
  /\ (forall topic content_type,
        Generation.create self topic content_type None (Some 0) (Some []) (Some []) =
          (response ← AIAutoNewsSDK._request self (lit "POST") (lit "/generate") None
                        (Some {[ lit "topic" := JStr topic;
                                 lit "type" := JStr (ContentType_value content_type) ]})
                        None;
           lift (Post_kwargs (data response))))
  /\ Analytics.usage self (Some []) (Some []) (Some []) =
       (response ← AIAutoNewsSDK._request self (lit "GET") (lit "/analytics/usage")
                     (Some ∅) None None;
        mret (data response))
  /\ (forall name,
        APIKeys.create self name (Some []) (Some []) =
          (response ← AIAutoNewsSDK._request self (lit "POST") (lit "/apikeys") None
                        (Some {[ lit "name" := JStr name ]}) None;
           mret (data response)))
  /\ (forall url events,
        Webhooks.create self url events (Some []) =
          (response ← AIAutoNewsSDK._request self (lit "POST") (lit "/webhooks") None
                        (Some {[ lit "url" := JStr url;
                                 lit "events" := JList (JStr <$> events) ]})
                        None;
           mret (data response))).
Proof.
  repeat split; intros; try reflexivity.
  - unfold Generation.create_body. cbn [when_truthy truthy_int Z.eqb negb].
    destruct tone as [[|? ?]|], audience as [[|? ?]|], urgency as [?|];
      cbn [when_truthy truthy_str truthy_enum]; reflexivity.
  - unfold Generation.create_body. cbn [when_truthy truthy_str].
    destruct audience as [[|? ?]|], target_length as [[| |]|], urgency as [?|];
      cbn [when_truthy truthy_str truthy_enum truthy_int Z.eqb negb]; reflexivity.
  - unfold Posts.list_params. cbn [when_truthy truthy_str].
    destruct published; reflexivity.
  - unfold Posts.list_params. cbn [when_not_None].
    apply lookup_insert_eq.
  - unfold Posts.list_params. cbn [when_not_None].
    destruct category as [[|? ?]|]; reflexivity.
Qed.

(* ===================================================================== *)
(** * The resource modules: what they raise *)
(* ===================================================================== *)

Section Propagation.

Context {A : Type}.
Variable exec : io APIResponse.

Lemma bind_propagates (k : APIResponse -> io A) :
  propagates (exec ≫= k) exec.
Proof.
  intros log log' e H. unfold mbind, io_bind. now rewrite H.
Qed.

(** A method that only unwraps the envelope raises nothing of its own. *)
Lemma unwrap_raises_only_from (f : APIResponse -> A) :
  raises_only_from (exec ≫= fun r => mret (f r)) exec.
Proof.
  intros log log' e. unfold mbind, io_bind, mret, io_ret.
  destruct (exec log) as [log1 [r|e1]]; [discriminate|].
  now intros [= <- <-].
Qed.

(** A method that converts the payload raises at most what the conversion
    raises. *)
Lemma convert_raises_from (post : APIResponse -> outcome A) :
  (forall r e, post r = Raise e -> e = Builtin TypeError) ->
  raises_from_or_TypeError (exec ≫= fun r => lift (post r)) exec.
Proof.
  intros Hpost log log' e. unfold mbind, io_bind, lift.
  destruct (exec log) as [log1 [r|e1]].
  - intros [= <- Hr]. right. split; [now apply (Hpost r)|eauto].
  - intros [= <- <-]. now left.
Qed.

End Propagation.

Lemma Post_kwargs_raises (v : json) (e : exn) :
  Post_kwargs v = Raise e -> e = Builtin TypeError.
Proof.
  unfold Post_kwargs. destruct v; try (now intros [= <-]).
  case_bool_decide; [|now intros [= <-]].
  repeat (match goal with
          | |- context [match ?x with Some _ => _ | None => _ end] => destruct x
          end; try (now intros [= <-])).
Qed.

Lemma Post_each_raises (items : list json) (e : exn) :
  Post_each items = Raise e -> e = Builtin TypeError.
Proof.
  induction items as [|x rest IH]; cbn [Post_each]; [discriminate|].
  destruct (Post_kwargs x) eqn:Hx; [|intros [= <-]; eapply Post_kwargs_raises, Hx].
  destruct (Post_each rest); [discriminate|].
  intros [= <-]. now apply IH.
Qed.

Lemma Post_list_raises (v : json) (e : exn) :
  Post_list v = Raise e -> e = Builtin TypeError.
Proof.
  unfold Post_list, py_iter.
  destruct v; try (now intros [= <-]); apply Post_each_raises.
Qed.

(** C7, amended.  Every resource method passes on whatever the executor
    raises, the same exception with the same log: none catches, reinterprets
    or replaces it.  The methods that only unwrap the envelope raise nothing
    of their own.  The methods that build [Post] objects from the payload
    raise, besides what the executor raises, only the [TypeError] of that
    construction on an envelope the executor returned. *)
Theorem resource_modules_propagate (self : AIAutoNewsSDK.t) :
  let exec := AIAutoNewsSDK._request self in
  (forall page limit category published,
     let call := exec (lit "GET") (lit "/posts")
                   (Some (Posts.list_params page limit category published)) None None in
     propagates (Posts.list self page limit category published) call
     /\ raises_from_or_TypeError (Posts.list self page limit category published) call)
  /\ (forall id_or_slug,
        let call := exec (lit "GET") (lit "/posts/" ++ id_or_slug) None None None in
        propagates (Posts.get self id_or_slug) call
        /\ raises_from_or_TypeError (Posts.get self id_or_slug) call)
  /\ (forall post_data,
        let call := exec (lit "POST") (lit "/posts") None (Some post_data) None in
        propagates (Posts.create self post_data) call
        /\ raises_from_or_TypeError (Posts.create self post_data) call)
  /\ (forall post_id post_data,
        let call := exec (lit "PUT") (lit "/posts/" ++ post_id) None (Some post_data) None in
        propagates (Posts.update self post_id post_data) call
        /\ raises_from_or_TypeError (Posts.update self post_id post_data) call)
  /\ (forall post_id,
        let call := exec (lit "DELETE") (lit "/posts/" ++ post_id) None None None in
        propagates (Posts.delete self post_id) call
        /\ raises_only_from (Posts.delete self post_id) call)
  /\ (forall query limit category,
        let call := exec (lit "GET") (lit "/search")
                      (Some (Posts.search_params query limit category)) None None in
        propagates (Posts.search self query limit category) call
        /\ raises_from_or_TypeError (Posts.search self query limit category) call)
  /\ (forall topic content_type urgency target_length tone audience,
        let call := exec (lit "POST") (lit "/generate") None
                      (Some (Generation.create_body topic content_type urgency
                               target_length tone audience)) None in
        propagates (Generation.create self topic content_type urgency
                      target_length tone audience) call
        /\ raises_from_or_TypeError
             (Generation.create self topic content_type urgency
                target_length tone audience) call)
  /\ (forall job_id,
        let call := exec (lit "GET") (lit "/generate/" ++ job_id) None None None in
        propagates (Generation.status self job_id) call
        /\ raises_only_from (Generation.status self job_id) call)
  /\ (forall start end_ metric,
        let call := exec (lit "GET") (lit "/analytics/usage")
                      (Some (Analytics.usage_params start end_ metric)) None None in
        propagates (Analytics.usage self start end_ metric) call
        /\ raises_only_from (Analytics.usage self start end_ metric) call)
  /\ (let call := exec (lit "GET") (lit "/analytics/metrics") None None None in
      propagates (Analytics.metrics self) call
      /\ raises_only_from (Analytics.metrics self) call)
  /\ (let call := exec (lit "GET") (lit "/subscriptions/current") None None None in
      propagates (Subscriptions.get self) call
      /\ raises_only_from (Subscriptions.get self) call)
  /\ (forall tier,
        let call := exec (lit "POST") (lit "/subscriptions/upgrade") None
                      (Some {[ lit "tier" := JStr tier ]}) None in
        propagates (Subscriptions.upgrade self tier) call
        /\ raises_only_from (Subscriptions.upgrade self tier) call)
  /\ (let call := exec (lit "POST") (lit "/subscriptions/cancel") None None None in
      propagates (Subscriptions.cancel self) call
      /\ raises_only_from (Subscriptions.cancel self) call)
  /\ (let call := exec (lit "GET") (lit "/apikeys") None None None in
      propagates (APIKeys.list self) call
      /\ raises_only_from (APIKeys.list self) call)
  /\ (forall name scopes expires_at,
        let call := exec (lit "POST") (lit "/apikeys") None
                      (Some (APIKeys.create_body name scopes expires_at)) None in
        propagates (APIKeys.create self name scopes expires_at) call
        /\ raises_only_from (APIKeys.create self name scopes expires_at) call)
  /\ (forall key_id,
        let call := exec (lit "DELETE") (lit "/apikeys/" ++ key_id) None None None in
        propagates (APIKeys.revoke self key_id) call
        /\ raises_only_from (APIKeys.revoke self key_id) call)
  /\ (let call := exec (lit "GET") (lit "/webhooks") None None None in
      propagates (Webhooks.list self) call
      /\ raises_only_from (Webhooks.list self) call)
  /\ (forall url events secret,
        let call := exec (lit "POST") (lit "/webhooks") None
                      (Some (Webhooks.create_body url events secret)) None in
        propagates (Webhooks.create self url events secret) call
        /\ raises_only_from (Webhooks.create self url events secret) call)
  /\ (forall webhook_id,
        let call := exec (lit "DELETE") (lit "/webhooks/" ++ webhook_id) None None None in
        propagates (Webhooks.delete self webhook_id) call
        /\ raises_only_from (Webhooks.delete self webhook_id) call).
Proof.
  cbv zeta.
  repeat match goal with
         | |- _ /\ _ => split
         | |- forall _, _ => intro
         end;
    first
      [ apply bind_propagates
      | apply (unwrap_raises_only_from _ (fun _ => tt))
      | apply (unwrap_raises_only_from _ data)
      | apply (convert_raises_from _ (fun r => Post_list (data r)));
        intros ? ?; apply Post_list_raises
      | apply (convert_raises_from _ (fun r => Post_kwargs (data r)));
        intros ? ?; apply Post_kwargs_raises ].
Qed.

(** C7 as stated fails: on the success response of the specification's own
    scenario, body [{"data":{"id":"p1","title":"T"}}], the executor returns
    an envelope and [Posts.get] itself raises [TypeError], because the
    payload lacks required fields of [Post]; and a [ValueError] raised inside
    the executor reaches the caller of [Analytics.metrics] as it is. *)
Lemma resource_module_raises_TypeError :
  (exists log r,
     AIAutoNewsSDK._request
       (Fixtures.client 3 (Fixtures.always (requests.Responds Fixtures.partial_post)))
       (lit "GET") (lit "/posts/p1") None None None [] = (log, Return r)
     /\ Posts.get
          (Fixtures.client 3 (Fixtures.always (requests.Responds Fixtures.partial_post)))
          (lit "p1") [] = (log, Raise (Builtin TypeError)))
  /\ (exists log,
        Analytics.metrics
          (Fixtures.client 3
             (Fixtures.always (requests.Responds (Fixtures.limited "abc"))))
          [] = (log, Raise (Builtin ValueError))).
Proof.
  split.
  - eexists. eexists. split; vm_compute; reflexivity.
  - eexists. vm_compute. reflexivity.
Qed.

(* ===================================================================== *)
(** * Test vectors for the library models *)
(* ===================================================================== *)

(** FIPS 180-4, one-block message. *)
Example sha256_abc :
  hashlib.hexdigest (hashlib.sha256 (lit "abc"))
  = lit "ba7816bf8f01cfea414140de5dae2223b00361a396177a9cb410ff61f20015ad".
Proof. vm_compute. reflexivity. Qed.

(** FIPS 180-4, two-block message. *)
Example sha256_two_blocks :
  hashlib.hexdigest
    (hashlib.sha256 (lit "abcdbcdecdefdefgefghfghighijhijkijkljklmklmnlmnomnopnopq"))
  = lit "248d6a61d20638b8e5c026930c3e6039a33ce45964ff2167f6ecedd419db06c1".
Proof. vm_compute. reflexivity. Qed.

(** RFC 4231, test case 2. *)
Example hmac_rfc4231_2 :
  hashlib.hexdigest (hmac.new (lit "Jefe") (lit "what do ya want for nothing?"))
  = lit "5bdcc146bf60754e6a042426089575c75a003f089d2739839dec58b964ec3843".
Proof. vm_compute. reflexivity. Qed.

(** RFC 4231, test case 6: a key longer than the block is hashed first. *)
Example hmac_rfc4231_6 :
  hashlib.hexdigest
    (hmac.new (repeat 170%N 131)
       (lit "Test Using Larger Than Block-Size Key - Hash Key First"))
  = lit "60e431591ee0b67f0d8a26aacbf5b77f8e0bc6213728c5140546040f0ee37f54".
Proof. vm_compute. reflexivity. Qed.

Example int_of_str_examples :
  int_of_str (lit "41") = Some 41
  /\ int_of_str (lit " -1_000 ") = Some (-1000)
  /\ int_of_str (lit "007") = Some 7
  /\ int_of_str (lit "abc") = None
  /\ int_of_str (lit "") = None
  /\ int_of_str (lit "1__0") = None
  /\ int_of_str (lit "_1") = None
  /\ int_of_str (lit "1_") = None
  /\ int_of_str (lit "+-1") = None
  /\ int_of_str (lit "- 1") = None
  /\ int_of_str (lit "4.5") = None.
Proof. repeat split; reflexivity. Qed.

(** White space and digits outside ASCII, and the separators that are not
    white space for [int()]. *)
Example int_of_str_unicode :
  int_of_str [28; 57]%N = None
  /\ int_of_str [57; 31]%N = None
  /\ int_of_str [133; 57]%N = Some 9
  /\ int_of_str [57; 160]%N = Some 9
  /\ int_of_str [1633; 1634]%N = Some 12
  /\ int_of_str [12288; 65297; 95; 65298; 8195]%N = Some 12
  /\ int_of_str [49; 0; 50]%N = None.
Proof. repeat split; reflexivity. Qed.

(** The cap on the number of digits: leading zeros count, the sign and the
    underscores do not. *)
Example int_of_str_digit_cap :
  let parses (s : str) :=
    match int_of_str s with Some _ => true | None => false end in
  parses (repeat 49%N 4300) = true
  /\ parses (repeat 49%N 4301) = false
  /\ parses (repeat 48%N 4301) = false
  /\ parses (45%N :: repeat 49%N 4300) = true
  /\ int_of_str (repeat 32%N 5000 ++ [49%N]) = Some 1.
Proof.
  cbv zeta.
  repeat match goal with |- _ /\ _ => split end; vm_compute; reflexivity.
Qed.

Example encode_examples :
  encode (lit "abc") = Some [97; 98; 99]%N
  /\ encode [233; 8364; 128512]%N
     = Some [195; 169; 226; 130; 172; 240; 159; 152; 128]%N
  /\ encode [55296%N] = None.
Proof. repeat split; reflexivity. Qed.

(* ===================================================================== *)
(** * The executor under an arbitrary network *)
(* ===================================================================== *)

Section Trace.

Import AIAutoNewsSDK.

Variable self : AIAutoNewsSDK.t.
Variable c : requests.Call.

(** Whatever the attempts do, the loop over the indices [i .. i+n-1], the
    last of which is the last index of the configuration, leaves [k] round
    trips with a sleep after each but the last. *)
Lemma retry_loop_trace (n : nat) : forall i last log,
  (n = 0%nat \/ Z.of_nat (i + n) = retries (config self)) ->
  exists k, (k <= n)%nat /\ (1 <= n -> 1 <= k)%nat
    /\ fst (retry_loop self c (Z.of_nat <$> seq i n) last log)
       = log ++ failed_rounds c (Z.of_nat (i + k)) i k.
Proof.
  induction n as [|n IH]; intros i last log HR.
  - exists 0%nat. cbn. rewrite app_nil_r. repeat split; lia.
  - destruct HR as [HR|HR]; [discriminate|].
    cbn [seq fmap list_fmap retry_loop]. unfold try_except.
    pose proof (attempt_log self c log) as Hlog.
    destruct (attempt self c log) as [log1 o] eqn:Ha. cbn [fst] in Hlog. subst log1.
    assert (Hone : log ++ [Sent c] = log ++ failed_rounds c (Z.of_nat (i + 1)) i 1).
    { cbn [failed_rounds].
      destruct (Z.ltb_spec (Z.of_nat i) (Z.of_nat (i + 1) - 1)); [lia|reflexivity]. }
    assert (Hdone : exists k, (k <= S n)%nat /\ (1 <= S n -> 1 <= k)%nat
              /\ log ++ [Sent c] = log ++ failed_rounds c (Z.of_nat (i + k)) i k)
      by (exists 1%nat; split; [lia|split; [lia|exact Hone]]).
    destruct o as [r|[e| |]]; try exact Hdone.
    destruct (is_client_error e); [exact Hdone|].
    unfold mbind, io_bind.
    destruct (Z.ltb_spec (Z.of_nat i) (retries (config self) - 1)) as [Hlt|Hge];
      cbn [time.sleep mret io_ret].
    + destruct (IH (S i) (Some e) ((log ++ [Sent c]) ++ [Slept (2 ^ Z.of_nat i)]))
        as (k & Hk & Hk1 & Hfst); [right; lia|].
      exists (S k). repeat split; [lia|lia|].
      rewrite Hfst. cbn [failed_rounds].
      destruct (Z.ltb_spec (Z.of_nat i) (Z.of_nat (i + S k) - 1)); [|lia].
      replace (S i + k)%nat with (i + S k)%nat by lia.
      now rewrite <- !app_assoc.
    + destruct n as [|n']; [|lia]. exact Hdone.
Qed.

(** A [RequestException] raised by an attempt never leaves the loop. *)
Lemma retry_loop_wraps (indices : list Z) : forall last log e,
  snd (retry_loop self c indices last log) <> Raise (RequestError e).
Proof.
  induction indices as [|i rest IH]; intros last log e; cbn [retry_loop].
  - discriminate.
  - unfold try_except.
    destruct (attempt self c log) as [log1 [r|[e1| |]]]; try discriminate.
    destruct (is_client_error e1); [discriminate|].
    unfold mbind, io_bind.
    destruct (i <? retries (config self) - 1); cbn; apply IH.
Qed.

(** [k] caught failures, none of them a client error, followed by an
    attempt that ends otherwise: that attempt decides the request. *)
Lemma retry_loop_recovers (errs : nat -> requests.RequestException) (k : nat) :
  forall n i last log log1 (o : outcome APIResponse),
  (k < n)%nat ->
  (forall j lg, (j < k)%nat -> attempts_of lg = (attempts_of log + j)%nat ->
     attempt self c lg = (lg ++ [Sent c], Raise (RequestError (errs (i + j)%nat)))) ->
  (forall j, (j < k)%nat -> is_client_error (errs (i + j)%nat) = false) ->
  attempt self c (log ++ failed_rounds c (retries (config self)) i k) = (log1, o) ->
  (forall e, o <> Raise (RequestError e)) ->
  retry_loop self c (Z.of_nat <$> seq i n) last log = (log1, o).
Proof.
  induction k as [|k IH]; intros n i last log log1 o Hkn Hatt Hcl Ha Ho.
  - destruct n as [|n]; [lia|]. cbn in Ha. rewrite app_nil_r in Ha.
    cbn [seq fmap list_fmap retry_loop]. unfold try_except. rewrite Ha.
    destruct o as [r|[e| |]]; try reflexivity. now destruct (Ho e).
  - destruct n as [|n]; [lia|].
    cbn [seq fmap list_fmap retry_loop]. unfold try_except.
    rewrite (Hatt 0%nat log) by lia. rewrite Nat.add_0_r.
    specialize (Hcl 0%nat ltac:(lia)) as Hc0. rewrite Nat.add_0_r in Hc0.
    rewrite Hc0. unfold mbind, io_bind.
    cbn [failed_rounds] in Ha.
    destruct (Z.of_nat i <? retries (config self) - 1);
      cbn [time.sleep mret io_ret app] in *.
    + apply (IH n (S i) _ ((log ++ [Sent c]) ++ [Slept (2 ^ Z.of_nat i)])); [lia| | |  |exact Ho].
      * intros j lg Hj Hlg. replace (S i + j)%nat with (i + S j)%nat by lia.
        apply Hatt; [lia|]. rewrite Hlg, attempts_of_slept, attempts_of_sent. lia.
      * intros j Hj. replace (S i + j)%nat with (i + S j)%nat by lia. apply Hcl. lia.
      * rewrite <- !app_assoc. exact Ha.
    + apply (IH n (S i) _ (log ++ [Sent c])); [lia| | | |exact Ho].
      * intros j lg Hj Hlg. replace (S i + j)%nat with (i + S j)%nat by lia.
        apply Hatt; [lia|]. rewrite Hlg, attempts_of_sent. lia.
      * intros j Hj. replace (S i + j)%nat with (i + S j)%nat by lia. apply Hcl. lia.
      * rewrite <- !app_assoc. exact Ha.
Qed.

End Trace.

Lemma total_sleep_powers (m : nat) :
  foldr Z.add 0 ((fun k => 2 ^ Z.of_nat k) <$> seq 0 m) = 2 ^ Z.of_nat m - 1.
Proof.
  induction m as [|m IH]; [reflexivity|].
  rewrite seq_S, fmap_app, foldr_app. cbn [fmap list_fmap foldr Nat.add].
  rewrite Z.add_0_r.
  assert (H : forall (l : list Z) (a : Z), foldr Z.add a l = foldr Z.add 0 l + a).
  { induction l as [|x l IHl]; intros a; cbn; [lia|]. rewrite IHl. lia. }
  rewrite H, IH. rewrite Nat2Z.inj_succ, Z.pow_succ_r by lia. lia.
Qed.

Lemma failed_rounds_events (c : requests.Call) (R : Z) (n : nat) : forall i,
  Forall (fun ev => ev = Sent c \/ exists s, ev = Slept s) (failed_rounds c R i n).
Proof.
  induction n as [|n IH]; intros i; cbn [failed_rounds]; [constructor|].
  constructor; [now left|]. apply Forall_app. split; [|apply IH].
  destruct (Z.of_nat i <? R - 1); [constructor; [right; eauto|constructor]|constructor].
Qed.

(** The trace of one request, whatever the network does. *)
Lemma request_trace (self : AIAutoNewsSDK.t) (method path : str)
    (params body : option dict) (headers : option (gmap str str))
    (log : list event) :
  exists k, (k <= Z.to_nat (retries (AIAutoNewsSDK.config self)))%nat
    /\ (1 <= retries (AIAutoNewsSDK.config self) -> (1 <= k)%nat)
    /\ fst (AIAutoNewsSDK._request self method path params body headers log)
       = log ++ failed_rounds
                  (AIAutoNewsSDK.call_of self method path params body headers)
                  (Z.of_nat k) 0 k.
Proof.
  unfold AIAutoNewsSDK._request. rewrite range_seq.
  destruct (retry_loop_trace self
              (AIAutoNewsSDK.call_of self method path params body headers)
              (Z.to_nat (retries (AIAutoNewsSDK.config self))) 0%nat None log)
    as (k & Hk & Hk1 & Hfst).
  { destruct (Z.le_gt_cases (retries (AIAutoNewsSDK.config self)) 0);
      [left|right]; lia. }
  exists k. repeat split; [exact Hk|lia|exact Hfst].
Qed.

(** Rounds that run up to the last index of their configuration alternate
    round trips and sleeps. *)
Lemma failed_rounds_positions (c : requests.Call) (n : nat) : forall i,
  let added := failed_rounds c (Z.of_nat (i + n)) i n in
  length added = (2 * n - 1)%nat
  /\ (forall j, (j < n)%nat -> added !! (2 * j)%nat = Some (Sent c))
  /\ (forall j, (S j < n)%nat ->
        added !! (2 * j + 1)%nat = Some (Slept (2 ^ Z.of_nat (i + j)))).
Proof.
  induction n as [|n IH]; intros i; cbv zeta.
  - cbn. repeat split; intros; lia.
  - cbn [failed_rounds]. destruct n as [|m].
    + destruct (Z.ltb_spec (Z.of_nat i) (Z.of_nat (i + 1) - 1)); [lia|].
      cbn. repeat split; intros j Hj; [|lia].
      now replace j with 0%nat by lia.
    + destruct (Z.ltb_spec (Z.of_nat i) (Z.of_nat (i + S (S m)) - 1)); [|lia].
      replace (i + S (S m))%nat with (S i + S m)%nat by lia.
      destruct (IH (S i)) as (Hl & He & Ho).
      cbn [app length]. rewrite Hl. split; [lia|]. split.
      * intros [|j] Hj; [reflexivity|].
        replace (2 * S j)%nat with (S (S (2 * j))) by lia.
        cbn [lookup list_lookup]. apply He. lia.
      * intros [|j] Hj; [now rewrite Nat.add_0_r|].
        replace (2 * S j + 1)%nat with (S (S (2 * j + 1))) by lia.
        cbn [lookup list_lookup]. rewrite Ho by lia.
        now replace (S i + j)%nat with (i + S j)%nat by lia.
Qed.

Lemma failed_rounds_interleaved (c : requests.Call) (k : nat) :
  interleaved c k (failed_rounds c (Z.of_nat k) 0 k).
Proof. exact (failed_rounds_positions c k 0%nat). Qed.

(** Rounds that all sleep, followed by one more round trip, are the rounds
    of a configuration that ends with that round trip. *)
Lemma failed_rounds_then_sent (c : requests.Call) (R : Z) (n : nat) : forall i,
  Z.of_nat (i + n) < R ->
  failed_rounds c R i n ++ [Sent c]
  = failed_rounds c (Z.of_nat (i + S n)) i (S n).
Proof.
  induction n as [|n IH]; intros i HR.
  - cbn [failed_rounds app].
    destruct (Z.ltb_spec (Z.of_nat i) (Z.of_nat (i + 1) - 1)); [lia|reflexivity].
  - cbn [failed_rounds].
    destruct (Z.ltb_spec (Z.of_nat i) (R - 1)); [|lia].
    destruct (Z.ltb_spec (Z.of_nat i) (Z.of_nat (i + S (S n)) - 1)); [|lia].
    cbn [app]. rewrite IH by lia.
    now replace (S i + S n)%nat with (i + S (S n))%nat by lia.
Qed.

(** X1.  Whatever the network does, one request adds to the log [k] round
    trips, all with the same arguments (the URL [base_url/api/version/path],
    the caller's query and body, the merged headers, the configured timeout),
    where [k] is at most [retries] and at least 1 when [retries >= 1]; the
    sleeps are 1, 2, 4, ..., one fewer than the round trips, each right
    after the round trip of its index and none after the last; and nothing
    logged before is touched. *)
Theorem request_schedule (self : AIAutoNewsSDK.t) (method path : str)
    (params body : option dict) (headers : option (gmap str str))
    (log : list event) :
  let c := {| requests.call_method := method;
              requests.call_url :=
                base_url (AIAutoNewsSDK.config self) ++ lit "/api/"
                ++ version (AIAutoNewsSDK.config self) ++ path;
              requests.call_params := params;
              requests.call_json := body;
              requests.call_headers := AIAutoNewsSDK.request_headers self headers;
              requests.call_timeout := timeout (AIAutoNewsSDK.config self) |} in
  exists (k : nat) (added : list event),
    fst (AIAutoNewsSDK._request self method path params body headers log)
      = log ++ added
    /\ (k <= Z.to_nat (retries (AIAutoNewsSDK.config self)))%nat
    /\ (1 <= retries (AIAutoNewsSDK.config self) -> (1 <= k)%nat)
    /\ Forall (fun ev => ev = Sent c \/ exists s, ev = Slept s) added
    /\ attempts_of added = k
    /\ sleeps_of added = (fun j => 2 ^ Z.of_nat j) <$> seq 0 (k - 1)
    /\ interleaved c k added.
Proof.
  intros c.
  destruct (request_trace self method path params body headers log)
    as (k & Hk & Hk1 & Hfst).
  exists k, (failed_rounds c (Z.of_nat k) 0 k).
  split; [exact Hfst|]. split; [exact Hk|]. split; [exact Hk1|].
  split; [|split; [|split]].
  - apply failed_rounds_events.
  - apply attempts_of_failed_rounds.
  - apply sleeps_of_failed_rounds. lia.
  - apply failed_rounds_interleaved.
Qed.

(** X2.  The time one request spends sleeping is less than
    [2 ^ (retries - 1)] seconds, whatever the network does; with
    [retries <= 1] it never sleeps. *)
Theorem request_total_sleep_bound (self : AIAutoNewsSDK.t) (method path : str)
    (params body : option dict) (headers : option (gmap str str))
    (log : list event) :
  exists added,
    fst (AIAutoNewsSDK._request self method path params body headers log)
      = log ++ added
    /\ 0 <= total_sleep added
         < 2 ^ Z.max 0 (retries (AIAutoNewsSDK.config self) - 1)
    /\ (retries (AIAutoNewsSDK.config self) <= 1 -> sleeps_of added = []).
Proof.
  destruct (request_trace self method path params body headers log)
    as (k & Hk & Hk1 & Hfst).
  eexists. split; [exact Hfst|].
  unfold total_sleep. rewrite sleeps_of_failed_rounds by lia.
  rewrite total_sleep_powers. split.
  - assert (0 < 2 ^ Z.of_nat (k - 1)) by (apply Z.pow_pos_nonneg; lia).
    split; [lia|].
    assert (2 ^ Z.of_nat (k - 1) <= 2 ^ Z.max 0 (retries (AIAutoNewsSDK.config self) - 1))
      by (apply Z.pow_le_mono_r; lia).
    lia.
  - intros H1. replace (k - 1)%nat with 0%nat by lia. reflexivity.
Qed.

(** X3.  No exception of the HTTP library ever reaches the caller of the
    executor: a run ends with an envelope, with the SDK's exception, or with
    a built-in exception. *)
Theorem request_never_raises_RequestException (self : AIAutoNewsSDK.t)
    (method path : str) (params body : option dict)
    (headers : option (gmap str str)) (log : list event) :
  match snd (AIAutoNewsSDK._request self method path params body headers log) with
  | Return _ => True
  | Raise (SDKError _) => True
  | Raise (Builtin _) => True
  | Raise (RequestError _) => False
  end.
Proof.
  pose proof (retry_loop_wraps self
                (AIAutoNewsSDK.call_of self method path params body headers)
                (range (retries (AIAutoNewsSDK.config self))) None log) as H.
  unfold AIAutoNewsSDK._request.
  destruct (snd _) as [r|[e| |]]; try exact I. now apply (H e).
Qed.

(** X4.  With [retries <= 0] the executor makes no round trip at all and
    raises the generic error with the text of [None] as message. *)
Theorem request_without_attempts (self : AIAutoNewsSDK.t) (method path : str)
    (params body : option dict) (headers : option (gmap str str))
    (log : list event) :
  retries (AIAutoNewsSDK.config self) <= 0 ->
  AIAutoNewsSDK._request self method path params body headers log =
    (log, Raise (SDKError {| message := JStr (lit "None");
                             code := JStr (lit "request_failed");
                             details := DetailData JNull |})).
Proof.
  intros H. unfold AIAutoNewsSDK._request, range.
  replace (Z.to_nat (retries (AIAutoNewsSDK.config self))) with 0%nat by lia.
  reflexivity.
Qed.

Lemma request_without_attempts_witness :
  AIAutoNewsSDK._request
    (Fixtures.client 0 (Fixtures.always (requests.Responds Fixtures.full_post)))
    (lit "GET") (lit "/posts/p1") None None None [] =
    ([], Raise (SDKError {| message := JStr (lit "None");
                            code := JStr (lit "request_failed");
                            details := DetailData JNull |})).
Proof.
  apply (request_without_attempts
           (Fixtures.client 0 (Fixtures.always (requests.Responds Fixtures.full_post)))).
  cbn. lia.
Defined.

(** While the last index is not reached, every round is followed by its
    sleep. *)
Lemma sleeps_of_failed_rounds_inner c R n : forall i,
  Z.of_nat (i + n) < R ->
  sleeps_of (failed_rounds c R i n) = (fun k => 2 ^ Z.of_nat k) <$> seq i n.
Proof.
  induction n as [|n IH]; intros i HR; [reflexivity|].
  cbn [failed_rounds].
  change (Sent c :: ?l) with ([Sent c] ++ l).
  rewrite !sleeps_of_app.
  destruct (Z.ltb_spec (Z.of_nat i) (R - 1)); [|lia].
  rewrite IH by lia. reflexivity.
Qed.

(** X5.  When the HTTP library raises an exception that carries a response
    with a 4xx status, the loop is left at once: one round trip, no sleep,
    and the generic error built from the exception, not from the body of the
    response it carries. *)
Theorem client_error_exception_breaks
    (self : AIAutoNewsSDK.t) (method path : str) (params body : option dict)
    (headers : option (gmap str str)) (log : list event)
    (e : requests.RequestException) (r : requests.Response) :
  let c := AIAutoNewsSDK.call_of self method path params body headers in
  1 <= retries (AIAutoNewsSDK.config self) ->
  requests.transport (AIAutoNewsSDK.session self) (attempts_of log) c
    = requests.Throws e ->
  requests.exc_response e = Some r ->
  400 <= requests.status_code r < 500 ->
  AIAutoNewsSDK._request self method path params body headers log =
    (log ++ [Sent c],
     Raise (SDKError {| message := JStr (requests.exc_str e);
                        code := JStr (lit "request_failed");
                        details := DetailError e |})).
Proof.
  intros c HN Ht Hr Hs.
  apply request_client_error_break; [exact HN|exact Ht|].
  unfold AIAutoNewsSDK.is_client_error. rewrite Hr.
  destruct (Z.leb_spec 400 (requests.status_code r)); [|lia].
  destruct (Z.ltb_spec (requests.status_code r) 500); [reflexivity|lia].
Qed.

Lemma client_error_exception_breaks_witness :
  let self := Fixtures.client 3
                (Fixtures.always (requests.Throws Fixtures.http_error_404)) in
  let c := AIAutoNewsSDK.call_of self (lit "GET") (lit "/posts/x") None None None in
  AIAutoNewsSDK._request self (lit "GET") (lit "/posts/x") None None None [] =
    ([] ++ [Sent c],
     Raise (SDKError {| message := JStr (lit "404 Client Error: Not Found");
                        code := JStr (lit "request_failed");
                        details := DetailError Fixtures.http_error_404 |})).
Proof.
  exact (client_error_exception_breaks
           (Fixtures.client 3
              (Fixtures.always (requests.Throws Fixtures.http_error_404)))
           (lit "GET") (lit "/posts/x") None None None []
           Fixtures.http_error_404 Fixtures.not_found
           ltac:(cbn; lia) ltac:(reflexivity) ltac:(reflexivity)
           ltac:(cbn; lia)).
Defined.

(** X6.  When every attempt fails in the transport with an exception that
    carries no 4xx response, all [retries] attempts are made, each but the
    last followed at once by its sleep of 1, 2, 4, ..., [2 ^ (retries - 2)],
    and the error raised is the generic one built from the last failure. *)
Theorem transport_failures_retried
    (self : AIAutoNewsSDK.t) (method path : str) (params body : option dict)
    (headers : option (gmap str str)) (log : list event)
    (errs : nat -> requests.RequestException) :
  let c := AIAutoNewsSDK.call_of self method path params body headers in
  let n := Z.to_nat (retries (AIAutoNewsSDK.config self)) in
  1 <= retries (AIAutoNewsSDK.config self) ->
  (forall j, (j < n)%nat ->
     requests.transport (AIAutoNewsSDK.session self) (attempts_of log + j)%nat c
       = requests.Throws (errs j)) ->
  (forall j, (j < n)%nat -> AIAutoNewsSDK.is_client_error (errs j) = false) ->
  exists added,
    AIAutoNewsSDK._request self method path params body headers log =
      (log ++ added,
       Raise (SDKError
                {| message := JStr (requests.exc_str (errs (n - 1)%nat));
                   code := JStr (lit "request_failed");
                   details := DetailError (errs (n - 1)%nat) |}))
    /\ attempts_of added = n
    /\ sleeps_of added = (fun k => 2 ^ Z.of_nat k) <$> seq 0 (n - 1)
    /\ interleaved c n added.
Proof.
  intros c n HN Ht Hcl.
  exists (failed_rounds c (Z.of_nat n) 0 n). split; [|split; [|split]].
  - unfold AIAutoNewsSDK._request. fold c. rewrite range_seq. fold n.
    rewrite (retry_loop_caught self c errs n 0%nat None log).
    + replace (retries (AIAutoNewsSDK.config self)) with (Z.of_nat n)
        by (subst n; lia).
      destruct n as [|m] eqn:E; [lia|].
      now replace (S m - 1)%nat with m by lia.
    + intros j lg Hj Hlg. apply attempt_throws. rewrite Hlg. now apply Ht.
    + intros j Hj. now apply Hcl.
  - apply attempts_of_failed_rounds.
  - apply sleeps_of_failed_rounds. lia.
  - apply failed_rounds_interleaved.
Qed.

Lemma transport_failures_retried_witness :
  let self := Fixtures.client 4
                (Fixtures.always (requests.Throws Fixtures.connection_refused)) in
  let c := AIAutoNewsSDK.call_of self (lit "GET") (lit "/posts") None None None in
  exists added,
    AIAutoNewsSDK._request self (lit "GET") (lit "/posts") None None None [] =
      ([] ++ added,
       Raise (SDKError
                {| message := JStr (lit "Connection refused");
                   code := JStr (lit "request_failed");
                   details := DetailError Fixtures.connection_refused |}))
    /\ attempts_of added = 4%nat
    /\ sleeps_of added = [1; 2; 4]
    /\ interleaved c 4 added.
Proof.
  apply (transport_failures_retried
           (Fixtures.client 4
              (Fixtures.always (requests.Throws Fixtures.connection_refused)))
           (lit "GET") (lit "/posts") None None None []
           (fun _ => Fixtures.connection_refused)).
  - cbn. lia.
  - intros j _. reflexivity.
  - intros j _. reflexivity.
Defined.

(** X7.  When the first [k] attempts fail in the transport without a 4xx
    response and attempt [k] (still within [retries]) receives a success
    response with an object or empty body and usable rate-limit header, the
    executor returns the envelope of that response after [k + 1] round
    trips, each but the last followed at once by its sleep of 1, 2, ...,
    [2 ^ (k - 1)]. *)
Theorem request_recovers
    (self : AIAutoNewsSDK.t) (method path : str) (params body : option dict)
    (headers : option (gmap str str)) (log : list event)
    (errs : nat -> requests.RequestException) (k : nat)
    (r : requests.Response) (d meta : dict) :
  let c := AIAutoNewsSDK.call_of self method path params body headers in
  (k < Z.to_nat (retries (AIAutoNewsSDK.config self)))%nat ->
  (forall j, (j < k)%nat ->
     requests.transport (AIAutoNewsSDK.session self) (attempts_of log + j)%nat c
       = requests.Throws (errs j)) ->
  (forall j, (j < k)%nat -> AIAutoNewsSDK.is_client_error (errs j) = false) ->
  requests.transport (AIAutoNewsSDK.session self) (attempts_of log + k)%nat c
    = requests.Responds r ->
  requests.ok r = true ->
  AIAutoNewsSDK.parse_body r = Return (JObj d) ->
  AIAutoNewsSDK.build_metadata r = Return meta ->
  exists added,
    AIAutoNewsSDK._request self method path params body headers log =
      (log ++ added,
       Return {| success := true;
                 data := default (JObj d) (d !! lit "data");
                 error := None;
                 metadata := Some meta |})
    /\ attempts_of added = S k
    /\ sleeps_of added = (fun j => 2 ^ Z.of_nat j) <$> seq 0 k
    /\ interleaved c (S k) added.
Proof.
  intros c Hk Ht Hcl Hr Hok Hd Hm.
  pose (R := retries (AIAutoNewsSDK.config self)).
  exists (failed_rounds c R 0 k ++ [Sent c]). subst R. split; [|split; [|split]].
  - unfold AIAutoNewsSDK._request. fold c. rewrite range_seq.
    apply (retry_loop_recovers self c errs k); try assumption.
    + intros j lg Hj Hlg. apply attempt_throws. rewrite Hlg. now apply Ht.
    + assert (Hn : attempts_of
                     (log ++ failed_rounds c (retries (AIAutoNewsSDK.config self)) 0 k)
                   = (attempts_of log + k)%nat)
        by (rewrite attempts_of_app, attempts_of_failed_rounds; reflexivity).
      rewrite <- Hn in Hr.
      rewrite (attempt_responds _ _ _ _ Hr).
      unfold mbind, io_bind, lift, mret, io_ret.
      rewrite Hd, Hok. cbn [negb py_get]. rewrite Hm.
      now rewrite <- app_assoc.
    + discriminate.
  - rewrite attempts_of_app, attempts_of_failed_rounds. cbn. lia.
  - rewrite sleeps_of_app, sleeps_of_failed_rounds_inner by lia.
    cbn. now rewrite app_nil_r.
  - rewrite failed_rounds_then_sent by lia. apply failed_rounds_interleaved.
Qed.

Lemma request_recovers_witness :
  let self := Fixtures.client 3
                (Fixtures.refused_then 2 (requests.Responds Fixtures.full_post)) in
  let c := AIAutoNewsSDK.call_of self (lit "GET") (lit "/posts/p1") None None None in
  exists added,
    AIAutoNewsSDK._request self (lit "GET") (lit "/posts/p1") None None None [] =
      ([] ++ added,
       Return {| success := true;
                 data := JObj Fixtures.full_post_fields;
                 error := None;
                 metadata :=
                   Some {[ lit "request_id" := JStr [];
                           lit "rate_limit" :=
                             JObj {[ lit "remaining" := JInt 0;
                                     lit "reset" := JStr [] ]} ]} |})
    /\ attempts_of added = 3%nat
    /\ sleeps_of added = [1; 2]
    /\ interleaved c 3 added.
Proof.
  exact (request_recovers
           (Fixtures.client 3
              (Fixtures.refused_then 2 (requests.Responds Fixtures.full_post)))
           (lit "GET") (lit "/posts/p1") None None None []
           (fun _ => Fixtures.connection_refused) 2 Fixtures.full_post
           {[ lit "data" := JObj Fixtures.full_post_fields ]}
           {[ lit "request_id" := JStr [];
              lit "rate_limit" :=
                JObj {[ lit "remaining" := JInt 0; lit "reset" := JStr [] ]} ]}
           ltac:(cbn; lia)
           ltac:(intros [|[|j]] Hj; [reflexivity|reflexivity|lia])
           ltac:(intros j _; reflexivity)
           ltac:(reflexivity) ltac:(reflexivity) ltac:(reflexivity)
           ltac:(reflexivity)).
Defined.

(** X8.  A body that is well-formed JSON but not an object makes the
    executor raise [AttributeError] after one round trip, on a success status
    and on an error status alike; so does, on an error status, an [error]
    member that is not an object. *)
Theorem non_object_body_raises_AttributeError
    (self : AIAutoNewsSDK.t) (method path : str) (params body : option dict)
    (headers : option (gmap str str)) (log : list event)
    (r : requests.Response) (v : json) :
  let c := AIAutoNewsSDK.call_of self method path params body headers in
  1 <= retries (AIAutoNewsSDK.config self) ->
  requests.transport (AIAutoNewsSDK.session self) (attempts_of log) c
    = requests.Responds r ->
  is_object v = false ->
  AIAutoNewsSDK.parse_body r = Return v
  \/ (requests.ok r = false
      /\ exists d, AIAutoNewsSDK.parse_body r = Return (JObj d)
                   /\ d !! lit "error" = Some v) ->
  AIAutoNewsSDK._request self method path params body headers log =
    (log ++ [Sent c], Raise (Builtin AttributeError)).
Proof.
  intros c HN Ht Hv Hcase.
  apply request_first_attempt; [assumption| |discriminate].
  fold c. rewrite (attempt_responds _ _ _ _ Ht).
  unfold mbind, io_bind, lift, raise.
  destruct Hcase as [Hp|(Hok & d & Hp & He)]; rewrite Hp.
  - destruct (negb (requests.ok r)); destruct v; try discriminate; reflexivity.
  - rewrite Hok. cbn [negb py_get]. rewrite He.
    destruct v; try discriminate; reflexivity.
Qed.

Lemma non_object_body_witness :
  let self := Fixtures.client 3
                (Fixtures.always (requests.Responds Fixtures.not_found_array)) in
  let c := AIAutoNewsSDK.call_of self (lit "GET") (lit "/posts/x") None None None in
  AIAutoNewsSDK._request self (lit "GET") (lit "/posts/x") None None None [] =
    ([] ++ [Sent c], Raise (Builtin AttributeError)).
Proof.
  exact (non_object_body_raises_AttributeError
           (Fixtures.client 3
              (Fixtures.always (requests.Responds Fixtures.not_found_array)))
           (lit "GET") (lit "/posts/x") None None None []
           Fixtures.not_found_array (JList [])
           ltac:(cbn; lia) ltac:(reflexivity) ltac:(reflexivity)
           ltac:(left; reflexivity)).
Defined.

(* ===================================================================== *)
(** * Headers *)
(* ===================================================================== *)

Lemma request_headers_lookup (self : AIAutoNewsSDK.t)
    (headers : option (gmap str str)) (name : str) :
  AIAutoNewsSDK.request_headers self headers !! name =
    match headers ≫= (fun h => h !! name) with
    | Some v => Some v
    | None => requests.session_headers (AIAutoNewsSDK.session self) !! name
    end.
Proof.
  unfold AIAutoNewsSDK.request_headers.
  destruct headers as [h|]; cbn; [|reflexivity].
  case_bool_decide as Hh; [subst h; now rewrite lookup_empty|].
  rewrite lookup_union. now destruct (h !! name), (_ !! name).
Qed.

(** X9.  In every round trip of a request, a header given for the call
    replaces the session's header of exactly the same name, and every
    session header not named by the call is sent as it is. *)
Theorem per_call_headers_win (self : AIAutoNewsSDK.t) (method path : str)
    (params body : option dict) (headers : option (gmap str str))
    (log : list event) :
  exists added,
    fst (AIAutoNewsSDK._request self method path params body headers log)
      = log ++ added
    /\ Forall (fun ev => forall c name, ev = Sent c ->
                 requests.call_headers c !! name =
                   match headers ≫= (fun h => h !! name) with
                   | Some v => Some v
                   | None =>
                       requests.session_headers (AIAutoNewsSDK.session self) !! name
                   end) added.
Proof.
  destruct (request_trace self method path params body headers log)
    as (k & _ & _ & Hfst).
  eexists. split; [exact Hfst|].
  eapply Forall_impl; [apply failed_rounds_events|].
  intros ev [->|[s ->]] c name Hc; [|discriminate].
  injection Hc as <-. apply request_headers_lookup.
Qed.

(** X10.  Every round trip made through a client built by the constructor
    carries [Authorization: Bearer <api_key>], [Content-Type:
    application/json] and the SDK's [User-Agent], each unless the call gives
    a header of that name. *)
Theorem default_headers_sent (cfg : SDKConfig + str) (s : requests.Session)
    (method path : str) (params body : option dict)
    (headers : option (gmap str str)) (log : list event) :
  let self := AIAutoNewsSDK.__init__ cfg s in
  let key := match cfg with inl c => api_key c | inr k => k end in
  let sent (name : string) (value : str) (c : requests.Call) :=
    requests.call_headers c !! lit name
      = Some (default value (headers ≫= (fun h => h !! lit name))) in
  exists added,
    fst (AIAutoNewsSDK._request self method path params body headers log)
      = log ++ added
    /\ Forall (fun ev => forall c, ev = Sent c ->
                 sent "Authorization" (lit "Bearer " ++ key) c
                 /\ sent "Content-Type" (lit "application/json") c
                 /\ sent "User-Agent" (lit "ai-auto-news-sdk-python/2.0.0") c)
         added.
Proof.
  intros self key sent.
  destruct (request_trace self method path params body headers log)
    as (k & _ & _ & Hfst).
  eexists. split; [exact Hfst|].
  eapply Forall_impl; [apply failed_rounds_events|].
  intros ev [->|[x ->]] c Hc; [|discriminate].
  injection Hc as <-. unfold sent. cbn [requests.call_headers AIAutoNewsSDK.call_of].
  rewrite !request_headers_lookup.
  assert (Hkey : api_key (AIAutoNewsSDK.config self) = key)
    by (subst self key; now destruct cfg).
  repeat split;
    (destruct (headers ≫= _) as [v|]; [reflexivity|]);
    cbn [default]; subst self; cbn [AIAutoNewsSDK.session AIAutoNewsSDK.__init__
                                      requests.session_headers];
    apply lookup_union_Some_l.
  - rewrite <- Hkey. now destruct cfg.
  - reflexivity.
  - reflexivity.
Qed.

(* ===================================================================== *)
(** * Building posts from payloads *)
(* ===================================================================== *)

Lemma Post_kwargs_object (m : dict) :
  dom m ⊆ Post_fields -> Post_required ⊆ dom m ->
  exists p, Post_kwargs (JObj m) = Return p.
Proof.
  intros Hsub Hreq. unfold Post_kwargs.
  rewrite bool_decide_eq_true_2 by exact Hsub.
  assert (Hk : forall k, k ∈ Post_required -> is_Some (m !! k))
    by (intros k Hin; apply elem_of_dom, Hreq, Hin).
  destruct (Hk (lit "id")) as [? ->]; [unfold Post_required; set_solver|].
  destruct (Hk (lit "title")) as [? ->]; [unfold Post_required; set_solver|].
  destruct (Hk (lit "content")) as [? ->]; [unfold Post_required; set_solver|].
  destruct (Hk (lit "category")) as [? ->]; [unfold Post_required; set_solver|].
  destruct (Hk (lit "slug")) as [? ->]; [unfold Post_required; set_solver|].
  destruct (Hk (lit "published")) as [? ->]; [unfold Post_required; set_solver|].
  destruct (Hk (lit "created_at")) as [? ->]; [unfold Post_required; set_solver|].
  eauto.
Qed.

(** X11.  A [Post] is built from a payload exactly when the payload is an
    object whose keys are all field names and include the seven fields
    without a default; every field then holds the payload's value under its
    name, [metadata] being [None] when absent.  In every other case the
    construction raises [TypeError]. *)
Theorem Post_kwargs_spec (v : json) :
  ((exists p, Post_kwargs v = Return p)
   <-> exists m, v = JObj m /\ dom m ⊆ Post_fields /\ Post_required ⊆ dom m)
  /\ (forall m p, v = JObj m -> Post_kwargs v = Return p ->
        m !! lit "id" = Some (Post.id p)
        /\ m !! lit "title" = Some (Post.title p)
        /\ m !! lit "content" = Some (Post.content p)
        /\ m !! lit "category" = Some (Post.category p)
        /\ m !! lit "slug" = Some (Post.slug p)
        /\ m !! lit "published" = Some (Post.published p)
        /\ m !! lit "created_at" = Some (Post.created_at p)
        /\ Post.metadata p = default JNull (m !! lit "metadata"))
  /\ ((forall p, Post_kwargs v <> Return p) -> Post_kwargs v = Raise (Builtin TypeError)).
Proof.
  split; [split|split].
  - intros [p Hp]. destruct v; try discriminate. exists m. split; [reflexivity|].
    unfold Post_kwargs in Hp. case_bool_decide as Hsub; [|discriminate].
    split; [exact Hsub|].
    destruct (m !! lit "id") eqn:E1; [|discriminate].
    destruct (m !! lit "title") eqn:E2; [|discriminate].
    destruct (m !! lit "content") eqn:E3; [|discriminate].
    destruct (m !! lit "category") eqn:E4; [|discriminate].
    destruct (m !! lit "slug") eqn:E5; [|discriminate].
    destruct (m !! lit "published") eqn:E6; [|discriminate].
    destruct (m !! lit "created_at") eqn:E7; [|discriminate].
    intros k Hk. apply elem_of_dom. unfold Post_required in Hk.
    rewrite !elem_of_union, !elem_of_singleton in Hk.
    destruct Hk as [[[[[[-> | ->] | ->] | ->] | ->] | ->] | ->]; eauto.
  - intros (m & -> & Hsub & Hreq). now apply Post_kwargs_object.
  - intros m p -> Hp. unfold Post_kwargs in Hp.
    case_bool_decide; [|discriminate].
    destruct (m !! lit "id"); [|discriminate].
    destruct (m !! lit "title"); [|discriminate].
    destruct (m !! lit "content"); [|discriminate].
    destruct (m !! lit "category"); [|discriminate].
    destruct (m !! lit "slug"); [|discriminate].
    destruct (m !! lit "published"); [|discriminate].
    destruct (m !! lit "created_at"); [|discriminate].
    injection Hp as <-. cbn. repeat split; reflexivity.
  - intros Hno. destruct (Post_kwargs v) as [p|e] eqn:E; [now destruct (Hno p)|].
    f_equal. eapply Post_kwargs_raises, E.
Qed.

Lemma Post_each_spec (items : list json) :
  (forall ps, Post_each items = Return ps ->
     Forall2 (fun x p => Post_kwargs x = Return p) items ps)
  /\ ((exists ps, Post_each items = Return ps)
      <-> Forall (fun x => exists p, Post_kwargs x = Return p) items).
Proof.
  induction items as [|x rest [IH1 IH2]]; cbn [Post_each].
  - split; [intros ps [= <-]; constructor|]. split; eauto.
  - split.
    + intros ps. destruct (Post_kwargs x) as [p|] eqn:Hx; [|discriminate].
      destruct (Post_each rest) as [ps'|]; [|discriminate].
      intros [= <-]. constructor; [exact Hx|now apply IH1].
    + split.
      * intros [ps Hps]. destruct (Post_kwargs x) as [p|] eqn:Hx; [|discriminate].
        destruct (Post_each rest) as [ps'|]; [|discriminate].
        constructor; [eauto|]. apply IH2. eauto.
      * intros H. inversion H as [|? ? [p Hp] Hrest]; subst.
        apply IH2 in Hrest. destruct Hrest as [ps Hps].
        rewrite Hp, Hps. eauto.
Qed.

(** X12.  Listing posts from a payload: a JSON array gives one [Post] per
    item, in order, and succeeds exactly when every item builds a [Post]; an
    object or a string gives the empty list when it is empty and raises
    [TypeError] otherwise, because its keys or characters are not mappings;
    any other value is not iterable and raises [TypeError]. *)
Theorem Post_list_spec :
  (forall l ps, Post_list (JList l) = Return ps ->
     length ps = length l /\ Forall2 (fun x p => Post_kwargs x = Return p) l ps)
  /\ (forall l, (exists ps, Post_list (JList l) = Return ps)
                <-> Forall (fun x => exists p, Post_kwargs x = Return p) l)
  /\ (forall m : dict,
        Post_list (JObj m) =
          if bool_decide (m = ∅) then Return [] else Raise (Builtin TypeError))
  /\ (forall s : str,
        Post_list (JStr s) =
          match s with [] => Return [] | _ :: _ => Raise (Builtin TypeError) end)
  /\ Post_list JNull = Raise (Builtin TypeError)
  /\ (forall b, Post_list (JBool b) = Raise (Builtin TypeError))
  /\ (forall n, Post_list (JInt n) = Raise (Builtin TypeError))
  /\ (forall x, Post_list (JFloat x) = Raise (Builtin TypeError)).
Proof.
  split; [|split; [|split; [|split]]]; try (repeat split; reflexivity).
  - intros l ps H. unfold Post_list in H. cbn in H.
    apply (proj1 (Post_each_spec l)) in H. split; [|exact H].
    symmetry. eapply Forall2_length, H.
  - intros l. apply (proj2 (Post_each_spec l)).
  - intros m. unfold Post_list. cbn [py_iter].
    case_bool_decide as Hm.
    + subst m. now rewrite dom_empty_L, elements_empty.
    + destruct (elements (dom m)) as [|k ks] eqn:E; [|reflexivity].
      exfalso. apply Hm. apply elements_empty_inv in E.
      apply dom_empty_inv_L. now apply leibniz_equiv.
  - intros [|ch s]; reflexivity.
Qed.

(* ===================================================================== *)
(** * More on webhook signatures *)
(* ===================================================================== *)

Section Digest.

Local Open Scope N_scope.

Lemma rounds_length (ks : list N) : forall win st,
  length st = 8%nat -> length (hashlib.rounds ks win st) = 8%nat.
Proof.
  induction ks as [|k ks IH]; intros win st Hst; cbn [hashlib.rounds]; [exact Hst|].
  apply IH. reflexivity.
Qed.

Lemma blocks_length (n : nat) : forall h bs,
  length h = 8%nat -> length (hashlib.blocks n h bs) = 8%nat.
Proof.
  induction n as [|n IH]; intros h bs Hh; cbn [hashlib.blocks]; [exact Hh|].
  apply IH. unfold hashlib.compress.
  rewrite length_zip_with, rounds_length by exact Hh. rewrite Hh. reflexivity.
Qed.

Lemma sha256_length (msg : bytes) : length (hashlib.sha256 msg) = 32%nat.
Proof.
  unfold hashlib.sha256. cbv zeta.
  pose proof (blocks_length (length (hashlib.pad msg) / 64) hashlib.H0
                (hashlib.pad msg) eq_refl) as H.
  destruct (hashlib.blocks _ _ _) as [|a [|b [|c [|d [|e [|f [|g [|h [|i l]]]]]]]]];
    try discriminate.
  reflexivity.
Qed.

Lemma hex_digit_lower (d : N) : d < 16 -> is_lower_hex (hashlib.hex_digit d) = true.
Proof.
  intros H. unfold hashlib.hex_digit, is_lower_hex.
  destruct (N.ltb_spec d 10).
  - replace (48 <=? 48 + d) with true by (symmetry; apply N.leb_le; lia).
    replace (48 + d <=? 57) with true by (symmetry; apply N.leb_le; lia).
    reflexivity.
  - replace (97 <=? 87 + d) with true by (symmetry; apply N.leb_le; lia).
    replace (87 + d <=? 102) with true by (symmetry; apply N.leb_le; lia).
    apply orb_true_r.
Qed.

Lemma hexdigest_shape (digest : bytes) :
  Forall (fun b => b < 256) digest ->
  length (hashlib.hexdigest digest) = (2 * length digest)%nat
  /\ forallb is_lower_hex (hashlib.hexdigest digest) = true.
Proof.
  induction 1 as [|b bs Hb _ [IHl IHh]]; [split; reflexivity|].
  unfold hashlib.hexdigest. cbn [flat_map app length forallb].
  fold (hashlib.hexdigest bs). rewrite IHl, IHh. split; [lia|].
  rewrite !hex_digit_lower; [reflexivity| |].
  - change 15 with (N.ones 4). rewrite N.land_ones. apply N.mod_lt. discriminate.
  - rewrite N.shiftr_div_pow2. apply N.Div0.div_lt_upper_bound. exact Hb.
Qed.

Lemma encode_char_None (ch : N) :
  encode_char ch = None <-> is_surrogate ch = true.
Proof.
  unfold encode_char, is_surrogate.
  destruct (N.ltb_spec ch 128).
  { split; [discriminate|]. intros H0. apply andb_prop in H0.
    destruct H0 as [H0 _]. apply N.leb_le in H0. lia. }
  destruct (N.ltb_spec ch 2048).
  { split; [discriminate|]. intros H1. apply andb_prop in H1.
    destruct H1 as [H1 _]. apply N.leb_le in H1. lia. }
  destruct ((55296 <=? ch) && (ch <=? 57343)); [split; reflexivity|].
  destruct (ch <? 65536); split; discriminate.
Qed.

Lemma encode_None (s : str) :
  encode s = None <-> existsb is_surrogate s = true.
Proof.
  induction s as [|ch s IH]; cbn [encode existsb]; [split; discriminate|].
  destruct (encode_char ch) eqn:Ec.
  - destruct (is_surrogate ch) eqn:Es;
      [apply encode_char_None in Es; congruence|].
    cbn [orb]. destruct (encode s).
    + split; [discriminate|]. intros H. apply IH in H. discriminate.
    + split; [intros _; now apply IH|reflexivity].
  - apply encode_char_None in Ec. rewrite Ec. split; reflexivity.
Qed.

Lemma encode_snoc_nul (s : str) (key : bytes) :
  encode s = Some key -> encode (s ++ [0]) = Some (key ++ [0]).
Proof.
  revert key. induction s as [|ch s IH]; intros key; cbn [encode app].
  - intros [= <-]. reflexivity.
  - destruct (encode_char ch) as [b|]; [|discriminate].
    destruct (encode s) as [bs|]; [|discriminate].
    intros [= <-]. rewrite (IH bs eq_refl). now rewrite app_assoc.
Qed.

(** A key shorter than the block gives the same code with a zero octet
    appended: both are padded with zeros to the block size. *)
Lemma hmac_new_nul (key msg : bytes) :
  (length key < hmac.block_size)%nat ->
  hmac.new (key ++ [0]) msg = hmac.new key msg.
Proof.
  intros H. unfold hmac.new, hmac.block_size in *. cbv zeta.
  rewrite length_app. cbn [length].
  destruct (Nat.ltb_spec 64 (length key + 1)); [lia|].
  destruct (Nat.ltb_spec 64 (length key)); [lia|].
  assert (E : (key ++ [0]) ++ repeat 0 (64 - length (key ++ [0]))
              = key ++ repeat 0 (64 - length key)).
  { rewrite length_app. cbn [length]. rewrite <- app_assoc. f_equal.
    replace (64 - length key)%nat with (S (64 - (length key + 1))) by lia.
    reflexivity. }
  now rewrite E.
Qed.

End Digest.

(** X13.  A signature that verifies is 64 characters long and made of
    lowercase hexadecimal digits only; the same digest in upper case, or with
    a prefix such as [sha256=], is rejected. *)
Theorem verified_signature_shape (payload signature secret : str) :
  AIAutoNewsSDK.verify_webhook_signature payload signature secret = Return true ->
  length signature = 64%nat /\ forallb is_lower_hex signature = true.
Proof.
  intros H. unfold AIAutoNewsSDK.verify_webhook_signature in H.
  destruct (encode secret) as [key|]; [|discriminate].
  destruct (encode payload) as [msg|]; [|discriminate].
  unfold hmac.compare_digest in H.
  destruct (is_ascii signature && _); [|discriminate].
  injection H as H. unfold str_eqb in H. apply bool_decide_eq_true in H. subst.
  destruct (hexdigest_shape (hmac.new key msg)) as [Hl Hh].
  { unfold hmac.new. cbv zeta. apply sha256_octets. }
  split; [|exact Hh]. rewrite Hl. unfold hmac.new. cbv zeta.
  now rewrite sha256_length.
Qed.

Lemma verified_signature_shape_witness :
  length Fixtures.abc_signature = 64%nat
  /\ forallb is_lower_hex Fixtures.abc_signature = true.
Proof.
  apply (verified_signature_shape (lit "abc") Fixtures.abc_signature (lit "s")).
  vm_compute. reflexivity.
Defined.

(** X14.  The check raises in two cases only: [UnicodeEncodeError] exactly
    when the payload or the secret contains a surrogate code point, and
    otherwise [TypeError] exactly when the signature contains a non-ASCII
    character.  In every other case it returns a boolean. *)
Theorem verify_raises_spec (payload signature secret : str) :
  let unencodable := existsb is_surrogate secret || existsb is_surrogate payload in
  (AIAutoNewsSDK.verify_webhook_signature payload signature secret
     = Raise (Builtin UnicodeEncodeError)
   <-> unencodable = true)
  /\ (AIAutoNewsSDK.verify_webhook_signature payload signature secret
        = Raise (Builtin TypeError)
      <-> unencodable = false /\ is_ascii signature = false)
  /\ (unencodable = false -> is_ascii signature = true ->
      exists b, AIAutoNewsSDK.verify_webhook_signature payload signature secret
                = Return b).
Proof.
  cbv zeta. unfold AIAutoNewsSDK.verify_webhook_signature.
  pose proof (encode_None secret) as Hs. pose proof (encode_None payload) as Hp.
  destruct (encode secret) as [key|].
  - assert (existsb is_surrogate secret = false) as ->
      by (destruct (existsb is_surrogate secret);
          [discriminate (proj2 Hs eq_refl)|reflexivity]).
    cbn [orb].
    destruct (encode payload) as [msg|].
    + assert (existsb is_surrogate payload = false) as ->
        by (destruct (existsb is_surrogate payload);
            [discriminate (proj2 Hp eq_refl)|reflexivity]).
      unfold hmac.compare_digest. rewrite hmac_hexdigest_ascii, andb_true_r.
      destruct (is_ascii signature); repeat split; try discriminate; eauto.
      * intros [_ ?]. discriminate.
    + rewrite (proj1 Hp eq_refl). repeat split; try discriminate; auto.
      intros [? _]. discriminate.
  - rewrite (proj1 Hs eq_refl). cbn [orb]. repeat split; try discriminate; auto.
    intros [? _]. discriminate.
Qed.

(** X15.  A NUL character appended to a secret whose UTF-8 form is shorter
    than 64 octets changes nothing: the check answers the same for every
    payload and signature. *)
Theorem secret_trailing_nul (payload signature secret : str) (key : bytes) :
  encode secret = Some key ->
  (length key < 64)%nat ->
  AIAutoNewsSDK.verify_webhook_signature payload signature (secret ++ [0%N])
  = AIAutoNewsSDK.verify_webhook_signature payload signature secret.
Proof.
  intros Hk Hlen. unfold AIAutoNewsSDK.verify_webhook_signature.
  rewrite (encode_snoc_nul _ _ Hk), Hk.
  destruct (encode payload) as [msg|]; [|reflexivity].
  now rewrite hmac_new_nul.
Qed.

Lemma secret_trailing_nul_witness :
  AIAutoNewsSDK.verify_webhook_signature
    (lit "abc") Fixtures.abc_signature (lit "s" ++ [0%N])
  = AIAutoNewsSDK.verify_webhook_signature
      (lit "abc") Fixtures.abc_signature (lit "s").
Proof.
  apply (secret_trailing_nul (lit "abc") Fixtures.abc_signature (lit "s") (lit "s")).
  - reflexivity.
  - cbn. lia.
Defined.

(* ===================================================================== *)
(** * What the resource modules put on the wire *)
(* ===================================================================== *)

(** Case analysis on an optional argument by its truthiness. *)
Local Ltac cases_of x :=
  match type of x with
  | option (list _) => destruct x as [[|? ?]|]
  | option Z => destruct x as [[| |]|]
  | option _ => destruct x as [?|]
  end.

(** Lookups and key sets of a payload whose optional arguments are known. *)
Local Ltac payload :=
  cbv zeta;
  unfold Posts.list_params, Posts.search_params, Generation.create_body,
    Analytics.usage_params, APIKeys.create_body, Webhooks.create_body;
  cbn [when_truthy when_not_None truthy_str truthy_int truthy_list truthy_enum
       sent_value fmap option_fmap option_map Z.eqb negb];
  repeat split; try reflexivity;
  apply (bool_decide_unpack _); vm_compute; exact I.

(** X16.  For every combination of arguments, the query or body a resource
    method builds holds its required keys with the caller's values, holds an
    optional key exactly when the argument is truthy ([published]: when it is
    not [None]) and then with the argument's value, and holds no other
    key. *)
Theorem payload_keys :
  (forall page limit category published,
     let d := Posts.list_params page limit category published in
     d !! lit "page" = Some (JInt page)
     /\ d !! lit "limit" = Some (JInt limit)
     /\ d !! lit "category" = JStr <$> sent_value truthy_str category
     /\ d !! lit "published" = JBool <$> published
     /\ dom d ⊆ {[ lit "page"; lit "limit"; lit "category"; lit "published" ]})
  /\ (forall query limit category,
        let d := Posts.search_params query limit category in
        d !! lit "q" = Some (JStr query)
        /\ d !! lit "limit" = Some (JInt limit)
        /\ d !! lit "category" = JStr <$> sent_value truthy_str category
        /\ dom d ⊆ {[ lit "q"; lit "limit"; lit "category" ]})
  /\ (forall topic content_type urgency target_length tone audience,
        let d := Generation.create_body topic content_type urgency
                   target_length tone audience in
        d !! lit "topic" = Some (JStr topic)
        /\ d !! lit "type" = Some (JStr (ContentType_value content_type))
        /\ d !! lit "urgency" = (fun u => JStr (Urgency_value u)) <$> urgency
        /\ d !! lit "targetLength" = JInt <$> sent_value truthy_int target_length
        /\ d !! lit "tone" = JStr <$> sent_value truthy_str tone
        /\ d !! lit "audience" = JStr <$> sent_value truthy_str audience
        /\ dom d ⊆ {[ lit "topic"; lit "type"; lit "urgency"; lit "targetLength";
                      lit "tone"; lit "audience" ]})
  /\ (forall start end_ metric,
        let d := Analytics.usage_params start end_ metric in
        d !! lit "start" = JStr <$> sent_value truthy_str start
        /\ d !! lit "end" = JStr <$> sent_value truthy_str end_
        /\ d !! lit "metric" = JStr <$> sent_value truthy_str metric
        /\ dom d ⊆ {[ lit "start"; lit "end"; lit "metric" ]})
  /\ (forall name scopes expires_at,
        let d := APIKeys.create_body name scopes expires_at in
        d !! lit "name" = Some (JStr name)
        /\ d !! lit "scopes"
           = (fun l => JList (JStr <$> l)) <$> sent_value truthy_list scopes
        /\ d !! lit "expiresAt" = JStr <$> sent_value truthy_str expires_at
        /\ dom d ⊆ {[ lit "name"; lit "scopes"; lit "expiresAt" ]})
  /\ (forall url events secret,
        let d := Webhooks.create_body url events secret in
        d !! lit "url" = Some (JStr url)
        /\ d !! lit "events" = Some (JList (JStr <$> events))
        /\ d !! lit "secret" = JStr <$> sent_value truthy_str secret
        /\ dom d ⊆ {[ lit "url"; lit "events"; lit "secret" ]}).
Proof.
  repeat match goal with |- _ /\ _ => split end.
  - intros page limit category published.
    cases_of category; cases_of published; payload.
  - intros query limit category. cases_of category; payload.
  - intros topic content_type urgency target_length tone audience.
    cases_of urgency; cases_of target_length; cases_of tone; cases_of audience;
      payload.
  - intros start end_ metric.
    cases_of start; cases_of end_; cases_of metric; payload.
  - intros name scopes expires_at. cases_of scopes; cases_of expires_at; payload.
  - intros url events secret. cases_of secret; payload.
Qed.

Section RoundTrips.

Context {A : Type}.

(** A continuation that only unwraps or converts the envelope logs
    nothing. *)
Lemma bind_lift_log (exec : io APIResponse) (post : APIResponse -> outcome A)
    (log : list event) :
  fst ((exec ≫= fun r => lift (post r)) log) = fst (exec log).
Proof.
  unfold mbind, io_bind, lift. now destruct (exec log) as [log1 [r|e]].
Qed.

Lemma request_round_trips (self : AIAutoNewsSDK.t) (method path : str)
    (params body : option dict) (post : APIResponse -> outcome A) :
  round_trips
    (AIAutoNewsSDK._request self method path params body None
       ≫= fun r => lift (post r))
    (AIAutoNewsSDK.call_of self method path params body None)
    (retries (AIAutoNewsSDK.config self)).
Proof.
  intros log. rewrite bind_lift_log.
  destruct (request_trace self method path params body None log)
    as (k & Hk & _ & Hfst).
  exists k. split; [exact Hk|exact Hfst].
Qed.

End RoundTrips.

(** X17.  Every public method of the six resource modules makes at most
    [retries] round trips, all of them to its own endpoint: the verb, the
    path under [base_url/api/version] with the identifier appended as it is,
    the query or body it built, and no headers of its own; between them it
    only sleeps the backoff delays. *)
Theorem resource_methods_round_trips (self : AIAutoNewsSDK.t) :
  let limit := retries (AIAutoNewsSDK.config self) in
  let call := AIAutoNewsSDK.call_of self in
  (forall page limit' category published,
     round_trips (Posts.list self page limit' category published)
       (call (lit "GET") (lit "/posts")
          (Some (Posts.list_params page limit' category published)) None None) limit)
  /\ (forall id_or_slug,
        round_trips (Posts.get self id_or_slug)
          (call (lit "GET") (lit "/posts/" ++ id_or_slug) None None None) limit)
  /\ (forall post_data,
        round_trips (Posts.create self post_data)
          (call (lit "POST") (lit "/posts") None (Some post_data) None) limit)
  /\ (forall post_id post_data,
        round_trips (Posts.update self post_id post_data)
          (call (lit "PUT") (lit "/posts/" ++ post_id) None (Some post_data) None) limit)
  /\ (forall post_id,
        round_trips (Posts.delete self post_id)
          (call (lit "DELETE") (lit "/posts/" ++ post_id) None None None) limit)
  /\ (forall query limit' category,
        round_trips (Posts.search self query limit' category)
          (call (lit "GET") (lit "/search")
             (Some (Posts.search_params query limit' category)) None None) limit)
  /\ (forall topic content_type urgency target_length tone audience,
        round_trips
          (Generation.create self topic content_type urgency target_length tone audience)
          (call (lit "POST") (lit "/generate") None
             (Some (Generation.create_body topic content_type urgency
                      target_length tone audience)) None) limit)
  /\ (forall job_id,
        round_trips (Generation.status self job_id)
          (call (lit "GET") (lit "/generate/" ++ job_id) None None None) limit)
  /\ (forall start end_ metric,
        round_trips (Analytics.usage self start end_ metric)
          (call (lit "GET") (lit "/analytics/usage")
             (Some (Analytics.usage_params start end_ metric)) None None) limit)
  /\ round_trips (Analytics.metrics self)
       (call (lit "GET") (lit "/analytics/metrics") None None None) limit
  /\ round_trips (Subscriptions.get self)
       (call (lit "GET") (lit "/subscriptions/current") None None None) limit
  /\ (forall tier,
        round_trips (Subscriptions.upgrade self tier)
          (call (lit "POST") (lit "/subscriptions/upgrade") None
             (Some {[ lit "tier" := JStr tier ]}) None) limit)
  /\ round_trips (Subscriptions.cancel self)
       (call (lit "POST") (lit "/subscriptions/cancel") None None None) limit
  /\ round_trips (APIKeys.list self)
       (call (lit "GET") (lit "/apikeys") None None None) limit
  /\ (forall name scopes expires_at,
        round_trips (APIKeys.create self name scopes expires_at)
          (call (lit "POST") (lit "/apikeys") None
             (Some (APIKeys.create_body name scopes expires_at)) None) limit)
  /\ (forall key_id,
        round_trips (APIKeys.revoke self key_id)
          (call (lit "DELETE") (lit "/apikeys/" ++ key_id) None None None) limit)
  /\ round_trips (Webhooks.list self)
       (call (lit "GET") (lit "/webhooks") None None None) limit
  /\ (forall url events secret,
        round_trips (Webhooks.create self url events secret)
          (call (lit "POST") (lit "/webhooks") None
             (Some (Webhooks.create_body url events secret)) None) limit)
  /\ (forall webhook_id,
        round_trips (Webhooks.delete self webhook_id)
          (call (lit "DELETE") (lit "/webhooks/" ++ webhook_id) None None None) limit).
Proof.
  cbv zeta.
  repeat match goal with
         | |- _ /\ _ => split
         | |- forall _, _ => intro
         end;
    first
      [ apply (request_round_trips self _ _ _ _ (fun r => Post_list (data r)))
      | apply (request_round_trips self _ _ _ _ (fun r => Post_kwargs (data r)))
      | apply (request_round_trips self _ _ _ _ (fun r => Return (data r)))
      | apply (request_round_trips self _ _ _ _ (fun _ => Return tt)) ].
Qed.

(* ===================================================================== *)
(** * Constructing a client *)
(* ===================================================================== *)

(** X18.  [create_client(key)] without options and [AIAutoNewsSDK(key)] build
    the same client; each option given to [create_client] replaces its own
    field of the configuration and no other; and a client built from a bare
    key sends every request to [https://api.ai-auto-news.com/api/v1<path>]
    with a timeout of 30 and makes at most 3 round trips per request. *)
Theorem create_client_spec (key : str) (s : requests.Session) :
  create_client key no_options s = AIAutoNewsSDK.__init__ (inr key) s
  /\ (forall kwargs,
        let cfg := AIAutoNewsSDK.config (create_client key kwargs s) in
        api_key cfg = key
        /\ base_url cfg
           = default (lit "https://api.ai-auto-news.com") (opt_base_url kwargs)
        /\ timeout cfg = default 30 (opt_timeout kwargs)
        /\ retries cfg = default 3 (opt_retries kwargs)
        /\ version cfg = default (lit "v1") (opt_version kwargs))
  /\ (forall method path params body headers log,
        let self := AIAutoNewsSDK.__init__ (inr key) s in
        exists (k : nat) (added : list event),
          fst (AIAutoNewsSDK._request self method path params body headers log)
            = log ++ added
          /\ (1 <= k <= 3)%nat
          /\ attempts_of added = k
          /\ Forall (fun ev => forall c, ev = Sent c ->
                       requests.call_url c
                         = lit "https://api.ai-auto-news.com/api/v1" ++ path
                       /\ requests.call_timeout c = 30) added).
Proof.
  split; [reflexivity|]. split; [intros kwargs; repeat split|].
  intros method path params body headers log self.
  destruct (request_trace self method path params body headers log)
    as (k & Hk & Hk1 & Hfst).
  exists k. eexists. split; [exact Hfst|].
  split; [split; [apply Hk1; cbn; lia|exact Hk]|].
  split; [apply attempts_of_failed_rounds|].
  eapply Forall_impl; [apply failed_rounds_events|].
  intros ev [->|[x ->]] c Hc; [|discriminate].
  injection Hc as <-. split; reflexivity.
Qed.
